(** * Histograms of the [metrics] package: a shallow embedding and its laws

    The Go package keeps a process-wide registry of histograms in five
    package-level variables ([hnames], [hsampled], [hists], [bhists] and the
    counter [curHistID]).  Every function of the package reads and mutates
    these tables, and each of them can panic.  The embedding below threads
    the tables through a state monad whose computations end either with a
    value or with a panic; the state at the moment of the panic is kept,
    because Go does not roll back what was written before it.

    The embedding is sequential: [sync/atomic] operations become plain reads
    and writes, the two compare-and-swap loops run their body once (an
    uncontended CAS succeeds), and the [RWMutex] is not represented. *)

From Stdlib Require Import ZArith Lia.
From stdpp Require Import base numbers option list strings gmap.

Local Open Scope Z_scope.

(** ** Constants and fixed-width arithmetic *)

Definition maxNumHists : Z := 1024.
Definition buflen : Z := 0x7FFF.
Definition bhistlen : Z := 65.

(** [math.MaxUint64] *)
Definition MaxUint64 : Z := 18446744073709551615.

(** Results of [uint64] and [uint32] arithmetic wrap around. *)
Definition wrap64 (x : Z) : Z := x mod 2 ^ 64.
Definition wrap32 (x : Z) : Z := x mod 2 ^ 32.

Definition is_uint64 (x : Z) : bool := (0 <=? x) && (x <=? MaxUint64).

(** ** Data *)

(** [type hdat struct]; every field is a [uint64], [buf] a slice of them. *)
Record hdat : Type := Hdat {
  count : Z;
  kept : Z;
  total : Z;
  min : Z;
  max : Z;
  buf : list Z
}.

(** [type hist struct], without its lock.  [prim] and [sec] are pointers to
    two [hdat] objects that belong to this [hist] alone; exchanging the two
    pointers is exchanging the two fields. *)
Record hist : Type := Hist {
  prim : hdat;
  sec : hdat
}.

(** [type bhist struct] *)
Record bhist : Type := BHist {
  buckets : list Z
}.

(** The package-level variables.  [hists] and [bhists] are slices of
    pointers: [None] is the nil pointer. *)
Record registry : Type := Registry {
  hnames : list string;
  hsampled : list bool;
  hists : list (option hist);
  bhists : list (option bhist);
  curHistID : Z
}.

(** Field writes. *)
Definition set_count (x : Z) (d : hdat) : hdat :=
  Hdat x (kept d) (total d) (min d) (max d) (buf d).
Definition set_kept (x : Z) (d : hdat) : hdat :=
  Hdat (count d) x (total d) (min d) (max d) (buf d).
Definition set_total (x : Z) (d : hdat) : hdat :=
  Hdat (count d) (kept d) x (min d) (max d) (buf d).
Definition set_min (x : Z) (d : hdat) : hdat :=
  Hdat (count d) (kept d) (total d) x (max d) (buf d).
Definition set_max (x : Z) (d : hdat) : hdat :=
  Hdat (count d) (kept d) (total d) (min d) x (buf d).
Definition set_buf (b : list Z) (d : hdat) : hdat :=
  Hdat (count d) (kept d) (total d) (min d) (max d) b.

Definition set_hnames (l : list string) (r : registry) : registry :=
  Registry l (hsampled r) (hists r) (bhists r) (curHistID r).
Definition set_hsampled (l : list bool) (r : registry) : registry :=
  Registry (hnames r) l (hists r) (bhists r) (curHistID r).
Definition set_hists (l : list (option hist)) (r : registry) : registry :=
  Registry (hnames r) (hsampled r) l (bhists r) (curHistID r).
Definition set_bhists (l : list (option bhist)) (r : registry) : registry :=
  Registry (hnames r) (hsampled r) (hists r) l (curHistID r).
Definition set_curHistID (x : Z) (r : registry) : registry :=
  Registry (hnames r) (hsampled r) (hists r) (bhists r) x.

(** ** Panics and the state monad *)

Inductive panic_value : Type :=
| PanicString (msg : string)   (* panic("...") of the package itself *)
| IndexOutOfRange              (* runtime error: index out of range *)
| NilDereference.              (* runtime error: nil pointer dereference *)

Inductive outcome (A : Type) : Type :=
| Ret (a : A)
| Panic (e : panic_value).
Arguments Ret {A} a.
Arguments Panic {A} e.

Definition M (A : Type) : Type := registry -> outcome A * registry.

Definition ret {A} (a : A) : M A := fun r => (Ret a, r).

Definition panic {A} (e : panic_value) : M A := fun r => (Panic e, r).

Definition bind {A B} (m : M A) (k : A -> M B) : M B :=
  fun r =>
    match m r with
    | (Ret a, r') => k a r'
    | (Panic e, r') => (Panic e, r')
    end.

Notation "'let*' x ':=' m 'in' k" := (bind m (fun x => k))
  (at level 10, x pattern, m at level 100, k at level 200).
Notation "m ';;' k" := (bind m (fun _ => k))
  (at level 100, k at level 200, right associativity).

Definition gets {A} (f : registry -> A) : M A := fun r => (Ret (f r), r).
Definition modify (f : registry -> registry) : M unit := fun r => (Ret tt, f r).

(** ** Slices *)

(** [s[i]] as an operand: Go checks the index against [len(s)]. *)
Definition slice_get {A} (s : list A) (i : Z) : option A :=
  if i <? 0 then None else s !! Z.to_nat i.

(** [s[i] = x]: the same check, then the update in place. *)
Definition slice_set {A} (s : list A) (i : Z) (x : A) : option (list A) :=
  if (0 <=? i) && (i <? Z.of_nat (length s))
  then Some (<[Z.to_nat i := x]> s) else None.

Definition index {A} (tbl : registry -> list A) (i : Z) : M A :=
  let* s := gets tbl in
  match slice_get s i with
  | Some a => ret a
  | None => panic IndexOutOfRange
  end.

Definition assign {A} (tbl : registry -> list A)
    (set : list A -> registry -> registry) (i : Z) (x : A) : M unit :=
  let* s := gets tbl in
  match slice_set s i x with
  | Some s' => modify (set s')
  | None => panic IndexOutOfRange
  end.

(** Following a pointer read from a table: nil panics. *)
Definition deref {A} (tbl : registry -> list (option A)) (i : Z) : M A :=
  let* p := index tbl i in
  match p with
  | Some a => ret a
  | None => panic NilDereference
  end.

(** ** Constructors *)

Definition newHdat : hdat :=
  set_min MaxUint64 (Hdat 0 0 0 0 0 (replicate (Z.to_nat (buflen + 1)) 0)).

Definition newHist : hist := Hist newHdat newHdat.

Definition newBHist : bhist := BHist (replicate 65 0).

(** The state the package starts in: the four [make] calls and [init]. *)
Definition init_registry : registry :=
  Registry (replicate (Z.to_nat maxNumHists) EmptyString)
           (replicate (Z.to_nat maxNumHists) false)
           (replicate (Z.to_nat maxNumHists) None)
           (replicate (Z.to_nat maxNumHists) None)
           0.

(** ** [lzcnt] *)

(** Modelled from the spec: [lzcnt] is called by [ObserveHist] but is defined
    in a file of the package that is not among the sources.  The spec gives
    the bucket index as the number of leading zero bits in the 64-bit binary
    representation of the value; [lzcnt_below n v] counts the zero bits from
    bit [n - 1] downwards until the first set bit. *)
Fixpoint lzcnt_below (n : nat) (v : Z) : Z :=
  match n with
  | O => 0
  | S k => if Z.testbit v (Z.of_nat k) then 0 else 1 + lzcnt_below k v
  end.

Definition lzcnt (v : Z) : Z := lzcnt_below 64 v.

(** ** The functions of the package *)

(** [atomic.AddUint32(curHistID, 1)]: returns the new value. *)
Definition atomic_AddUint32_curHistID (delta : Z) : M Z :=
  let* old := gets curHistID in
  let new := wrap32 (old + delta) in
  modify (set_curHistID new) ;;
  ret new.

Definition AddHistogram (name : string) (sampled : bool) : M Z :=
  let* new := atomic_AddUint32_curHistID 1 in
  let idx := wrap32 (new - 1) in
  if maxNumHists <=? idx then panic (PanicString "Too many histograms")
  else
    assign hnames set_hnames idx name ;;
    assign hsampled set_hsampled idx sampled ;;
    assign hists set_hists idx (Some newHist) ;;
    assign bhists set_bhists idx (Some newBHist) ;;
    ret idx.

(** Writes through the pointer [h := hists[id]]: the object it points to is
    the one held in the table. *)
Definition store_prim (id : Z) (d : hdat) : M unit :=
  let* h := deref hists id in
  assign hists set_hists id (Some (Hist d (sec h))).

Definition load_prim (id : Z) : M hdat :=
  let* h := deref hists id in ret (prim h).

(** [atomic.AddUint64(&h.prim.f, delta)]: returns the new value. *)
Definition atomic_AddUint64_prim (get : hdat -> Z) (set : Z -> hdat -> hdat)
    (id delta : Z) : M Z :=
  let* p := load_prim id in
  let new := wrap64 (get p + delta) in
  store_prim id (set new p) ;;
  ret new.

(** [atomic.AddUint64(&bhists[id].buckets[bucket], 1)] *)
Definition atomic_AddUint64_bucket (id bucket delta : Z) : M Z :=
  let* b := deref bhists id in
  match slice_get (buckets b) bucket with
  | None => panic IndexOutOfRange
  | Some old =>
      let new := wrap64 (old + delta) in
      match slice_set (buckets b) bucket new with
      | None => panic IndexOutOfRange
      | Some bs => assign bhists set_bhists id (Some (BHist bs)) ;; ret new
      end
  end.

Definition ObserveHist (id value : Z) : M unit :=
  (* h := hists[id]; h.lock.RLock() *)
  deref hists id ;;
  (* Keep a running total for average *)
  atomic_AddUint64_prim total set_total id value ;;
  (* Set max and min (if needed) *)
  let* p := load_prim id in
  (if (value <? max p) then ret tt else store_prim id (set_max value p)) ;;
  let* p := load_prim id in
  (if (min p <? value) then ret tt else store_prim id (set_min value p)) ;;
  (* Record the bucketized histograms *)
  let bucket := lzcnt value in
  atomic_AddUint64_bucket id bucket 1 ;;
  (* Count and possibly return for sampling *)
  let* c := atomic_AddUint64_prim count set_count id 1 in
  let* sampled := index hsampled id in
  if sampled && (0 <? Z.land c 0x3) then ret tt
  else
    (* Get the current index as the count % buflen *)
    let* k := atomic_AddUint64_prim kept set_kept id 1 in
    let idx := Z.land k buflen in
    (* Add observation *)
    let* p := load_prim id in
    match slice_set (buf p) idx value with
    | None => panic IndexOutOfRange
    | Some b => store_prim id (set_buf b p)
    end.

(** [extractAndReset] on the object its argument points to.  The result is
    the new object and the contents of [h.sec], the pointer it returns. *)
Definition extractAndReset (h : hist) : hist * hdat :=
  (* flip and reset the count *)
  let h := Hist (sec h) (prim h) in
  let h := Hist (set_count 0 (prim h)) (sec h) in
  let h := Hist (set_kept 0 (prim h)) (sec h) in
  let h := Hist (set_total 0 (prim h)) (sec h) in
  let h := Hist (set_max 0 (prim h)) (sec h) in
  let h := Hist (set_min MaxUint64 (prim h)) (sec h) in
  (h, sec h).

(** The call [extractAndReset(hists[i])]: the argument is read from the
    table, and taking the lock of a nil [*hist] panics. *)
Definition call_extractAndReset (i : Z) : M hdat :=
  let* h := deref hists i in
  let '(h', snap) := extractAndReset h in
  assign hists set_hists i (Some h') ;;
  ret snap.

(** [for i := 0; i < n; i++ { acc = body(i, acc) }] *)
Fixpoint for_loop {S : Type} (n : nat) (i : Z) (body : Z -> S -> M S) (acc : S)
    : M S :=
  match n with
  | O => ret acc
  | S n' => let* acc' := body i acc in for_loop n' (i + 1) body acc'
  end.

Definition getAllHistograms : M (gmap string hdat) :=
  let* n := gets curHistID in
  for_loop (Z.to_nat n) 0
    (fun i ret_ =>
       let* name := index hnames i in
       let* snap := call_extractAndReset i in
       ret (<[name := snap]> ret_))
    ∅.

(** The loop of [extractBHist]: [ret[i] = atomic.LoadUint64(&b.buckets[i])]
    for the [n] indices from [i] on. *)
Fixpoint extractBHist_loop (b : bhist) (n : nat) (i : Z) (ret_ : list Z)
    : outcome (list Z) :=
  match n with
  | O => Ret ret_
  | S n' =>
      match slice_get (buckets b) i with
      | None => Panic IndexOutOfRange
      | Some x =>
          match slice_set ret_ i x with
          | None => Panic IndexOutOfRange
          | Some ret' => extractBHist_loop b n' (i + 1) ret'
          end
      end
  end.

(** [extractBHist] only reads the object its argument points to, so it is a
    function of that object. *)
Definition extractBHist (b : bhist) : outcome (list Z) :=
  extractBHist_loop b (Z.to_nat bhistlen) 0 (replicate (Z.to_nat bhistlen) 0).

Definition getAllBucketHistograms : M (gmap string (list Z)) :=
  let* n := gets curHistID in
  for_loop (Z.to_nat n) 0
    (fun i ret_ =>
       let* name := index hnames i in
       let* b := deref bhists i in
       match extractBHist b with
       | Ret bs => ret (<[name := bs]> ret_)
       | Panic e => panic e
       end)
    ∅.

(** ** Pure readings of one observation

    What one successful [ObserveHist] does to the primary buffer and to the
    bucket counters of its handle, as functions; [ObserveHist_run] below
    proves that the monadic code computes exactly these. *)

Definition observe_hdat (sampled : bool) (value : Z) (d : hdat) : hdat :=
  let d := set_total (wrap64 (total d + value)) d in
  let d := if value <? max d then d else set_max value d in
  let d := if min d <? value then d else set_min value d in
  let c := wrap64 (count d + 1) in
  let d := set_count c d in
  if sampled && (0 <? Z.land c 0x3) then d
  else
    let k := wrap64 (kept d + 1) in
    let d := set_kept k d in
    set_buf (<[Z.to_nat (Z.land k buflen) := value]> (buf d)) d.

Definition observe_bhist (value : Z) (b : bhist) : bhist :=
  let i := Z.to_nat (lzcnt value) in
  BHist (<[i := wrap64 (buckets b !!! i + 1)]> (buckets b)).

(** A handle whose four table entries are what [AddHistogram] makes them:
    both pointers set, 65 buckets, two sample buffers of [buflen + 1]
    slots. *)
Record registered (r : registry) (id : Z) (sampled : bool)
    (h : hist) (b : bhist) : Prop := Registered {
  reg_hist : slice_get (hists r) id = Some (Some h);
  reg_bhist : slice_get (bhists r) id = Some (Some b);
  reg_sampled : slice_get (hsampled r) id = Some sampled;
  reg_buckets : Z.of_nat (length (buckets b)) = bhistlen;
  reg_prim_buf : Z.of_nat (length (buf (prim h))) = buflen + 1;
  reg_sec_buf : Z.of_nat (length (buf (sec h))) = buflen + 1
}.

(** The state [extractAndReset] and [newHdat] leave a buffer in. *)
Definition fresh (d : hdat) : Prop :=
  count d = 0 /\ kept d = 0 /\ total d = 0 /\ max d = 0 /\ min d = MaxUint64.

(** [ObserveHist(id, v)] for each [v] of a list, in order. *)
Fixpoint observe_all (id : Z) (vs : list Z) : M unit :=
  match vs with
  | [] => ret tt
  | v :: vs' => ObserveHist id v ;; observe_all id vs'
  end.

Definition observe_all_hdat (sampled : bool) (vs : list Z) (d : hdat) : hdat :=
  foldl (fun d v => observe_hdat sampled v d) d vs.

Definition observe_all_bhist (vs : list Z) (b : bhist) : bhist :=
  foldl (fun b v => observe_bhist v b) b vs.

(** The registry with the object behind [hists[id]] replaced by [h]. *)
Definition with_hist (id : Z) (h : hist) (r : registry) : registry :=
  set_hists (<[Z.to_nat id := Some h]> (hists r)) r.

(** The registry with the object behind [bhists[id]] replaced by [b]. *)
Definition with_bhist (id : Z) (b : bhist) (r : registry) : registry :=
  set_bhists (<[Z.to_nat id := Some b]> (bhists r)) r.

(** The five stores of [extractAndReset] on the new primary buffer; [buf] is
    not touched. *)
Definition reset (d : hdat) : hdat :=
  set_min MaxUint64 (set_max 0 (set_total 0 (set_kept 0 (set_count 0 d)))).

(** The observations of [vs] that reach the sample buffer when [c]
    observations came before them in the interval: all of them, or with
    sampling those whose running count is a multiple of four. *)
Fixpoint retained (sampled : bool) (c : Z) (vs : list Z) : list Z :=
  match vs with
  | [] => []
  | v :: vs' =>
      if sampled && negb ((c + 1) mod 4 =? 0) then retained sampled (c + 1) vs'
      else v :: retained sampled (c + 1) vs'
  end.

(** Writing the retained values [rs] after [k] earlier ones: the [i]-th
    retained value of the interval goes to slot [i mod 32768]. *)
Fixpoint write_all (k : Z) (rs : list Z) (b : list Z) : list Z :=
  match rs with
  | [] => b
  | v :: rs' => write_all (k + 1) rs' (<[Z.to_nat ((k + 1) mod 32768) := v]> b)
  end.

Definition sum_list (vs : list Z) : Z := foldr Z.add 0 vs.

(** The observations [vs] on handle [id], then one [extractAndReset] of it. *)
Definition observe_then_extract (id : Z) (vs : list Z) : M hdat :=
  observe_all id vs ;; call_extractAndReset id.

Definition outcome_map {A B} (f : A -> B) (o : outcome A) : outcome B :=
  match o with
  | Ret a => Ret (f a)
  | Panic e => Panic e
  end.

(** The registry after the first registration, by name and sampling flag. *)
Definition registry_with_one (name : string) (sampled : bool) : registry :=
  snd (AddHistogram name sampled init_registry).

Inductive op : Type :=
| OpAddHistogram (name : string) (sampled : bool)
| OpObserveHist (id value : Z)
| OpExtractAndReset (id : Z)
| OpGetAllHistograms
| OpGetAllBucketHistograms.

Definition step (o : op) : M unit :=
  match o with
  | OpAddHistogram name sampled => AddHistogram name sampled ;; ret tt
  | OpObserveHist id value => ObserveHist id value
  | OpExtractAndReset id => call_extractAndReset id ;; ret tt
  | OpGetAllHistograms => getAllHistograms ;; ret tt
  | OpGetAllBucketHistograms => getAllBucketHistograms ;; ret tt
  end.

(** The calls one after the other; a panic ends the sequence. *)
Fixpoint run (ops : list op) : M unit :=
  match ops with
  | [] => ret tt
  | o :: ops' => step o ;; run ops'
  end.

(** Observed values are [uint64]. *)
Definition well_typed (o : op) : Prop :=
  match o with
  | OpObserveHist _ value => 0 <= value <= MaxUint64
  | _ => True
  end.

(** How many of the calls are registrations. *)
Fixpoint count_adds (ops : list op) : Z :=
  match ops with
  | [] => 0
  | OpAddHistogram _ _ :: ops' => 1 + count_adds ops'
  | _ :: ops' => count_adds ops'
  end.

(** The tables as a run of calls from [init_registry] keeps them: four slices
    of [maxNumHists] entries, the handles below [curHistID] registered, the
    others nil. *)
Record wf (r : registry) : Prop := Wf {
  wf_hnames : Z.of_nat (length (hnames r)) = maxNumHists;
  wf_hsampled : Z.of_nat (length (hsampled r)) = maxNumHists;
  wf_hists : Z.of_nat (length (hists r)) = maxNumHists;
  wf_bhists : Z.of_nat (length (bhists r)) = maxNumHists;
  wf_cur : 0 <= curHistID r <= maxNumHists;
  wf_reg : forall i, 0 <= i < curHistID r ->
           exists sampled h b, registered r i sampled h b;
  wf_unreg_hists : forall i h, curHistID r <= i ->
                   slice_get (hists r) i <> Some (Some h);
  wf_unreg_bhists : forall i b, curHistID r <= i ->
                    slice_get (bhists r) i <> Some (Some b)
}.

(** The invariant of an aggregate buffer, with the bound [C] on the number of
    calls made so far that keeps the counters from wrapping. *)
Definition buffer_inv (d : hdat) : Prop :=
  kept d <= count d
  /\ (0 < count d -> min d <= max d)
  /\ (count d = 0 -> min d = MaxUint64 /\ max d = 0).

Definition dat_ok (C : Z) (d : hdat) : Prop :=
  0 <= kept d <= count d /\ count d <= C
  /\ (0 < count d -> 0 <= min d <= max d /\ max d <= MaxUint64)
  /\ (count d = 0 -> min d = MaxUint64 /\ max d = 0).

Record bounded (C : Z) (r : registry) : Prop := Bounded {
  bounded_hists : forall i h, slice_get (hists r) i = Some (Some h) ->
                  dat_ok C (prim h) /\ dat_ok C (sec h);
  bounded_bhists : forall i b, slice_get (bhists r) i = Some (Some b) ->
                   Forall (fun x => 0 <= x <= C) (buckets b)
}.

(** Accumulating [ret[k] = v] for the entries of the handles [js], in the
    order of [js]: a later entry with the same key replaces the earlier. *)
Definition fold_entries {V : Type} (entry : Z -> option (string * V))
    (acc : gmap string V) (js : list Z) : gmap string V :=
  foldl (fun acc j => match entry j with
                      | Some (k, v) => <[k := v]> acc
                      | None => acc
                      end) acc js.

(** What [getAllHistograms] stores for handle [j]: its name and the snapshot
    [extractAndReset] returns for it. *)
Definition snapshot_entry (r : registry) (j : Z) : option (string * hdat) :=
  match slice_get (hnames r) j, slice_get (hists r) j with
  | Some name, Some (Some h) => Some (name, snd (extractAndReset h))
  | _, _ => None
  end.

(** What [getAllBucketHistograms] stores for handle [j]. *)
Definition bucket_entry (r : registry) (j : Z) : option (string * list Z) :=
  match slice_get (hnames r) j, slice_get (bhists r) j with
  | Some name, Some (Some b) => Some (name, buckets b)
  | _, _ => None
  end.

(** A table entry after [extractAndReset] on what it points to. *)
Definition extracted (p : option hist) : option hist :=
  match p with
  | Some h => Some (fst (extractAndReset h))
  | None => None
  end.

(** The table [hists] after [extractAndReset] on the handles [lo <= j < hi]. *)
Definition extract_hists (lo hi : Z) (r : registry) : registry :=
  set_hists
    (imap (fun j p => if (lo <=? Z.of_nat j) && (Z.of_nat j <? hi)
                      then extracted p else p)
          (hists r)) r.

Definition getAllHistograms_body (i : Z) (ret_ : gmap string hdat)
    : M (gmap string hdat) :=
  let* name := index hnames i in
  let* snap := call_extractAndReset i in
  ret (<[name := snap]> ret_).

Definition getAllBucketHistograms_body (i : Z) (ret_ : gmap string (list Z))
    : M (gmap string (list Z)) :=
  let* name := index hnames i in
  let* b := deref bhists i in
  match extractBHist b with
  | Ret bs => ret (<[name := bs]> ret_)
  | Panic e => panic e
  end.

Inductive step_result (r : registry) : op -> outcome unit -> registry -> Prop :=
| StepAdd name sampled :
    curHistID r < maxNumHists ->
    step_result r (OpAddHistogram name sampled) (Ret tt)
      (snd (AddHistogram name sampled r))
| StepAddFull name sampled :
    curHistID r = maxNumHists ->
    step_result r (OpAddHistogram name sampled)
      (Panic (PanicString "Too many histograms"))
      (set_curHistID (maxNumHists + 1) r)
| StepObserve id value sampled h b :
    registered r id sampled h b ->
    step_result r (OpObserveHist id value) (Ret tt)
      (with_bhist id (observe_bhist value b)
         (with_hist id (Hist (observe_hdat sampled value (prim h)) (sec h)) r))
| StepObserveBad id value e :
    e = IndexOutOfRange \/ e = NilDereference ->
    step_result r (OpObserveHist id value) (Panic e) r
| StepExtract id sampled h b :
    registered r id sampled h b ->
    step_result r (OpExtractAndReset id) (Ret tt)
      (with_hist id (fst (extractAndReset h)) r)
| StepExtractBad id e :
    e = IndexOutOfRange \/ e = NilDereference ->
    step_result r (OpExtractAndReset id) (Panic e) r
| StepGetAll :
    step_result r OpGetAllHistograms (Ret tt) (extract_hists 0 (curHistID r) r)
| StepGetAllBuckets :
    step_result r OpGetAllBucketHistograms (Ret tt) r.

(** No bucket counter of [r] is lower in [r'], and no bucket histogram of [r]
    is gone or resized in [r']. *)
Definition buckets_le (r r' : registry) : Prop :=
  forall i b, slice_get (bhists r) i = Some (Some b) ->
    exists b', slice_get (bhists r') i = Some (Some b')
               /\ length (buckets b') = length (buckets b)
               /\ (forall j x, buckets b !! j = Some x ->
                   exists x', buckets b' !! j = Some x' /\ x <= x').

(** The aggregate-buffer invariant on both buffers of every histogram of the
    table. *)
Definition all_buffers_inv (r : registry) : Prop :=
  Forall (fun p => match p with
                   | Some h => buffer_inv (prim h) /\ buffer_inv (sec h)
                   | None => True
                   end) (hists r).

(** How many of the calls are observations on handle [id]. *)
Fixpoint count_obs (id : Z) (ops : list op) : Z :=
  match ops with
  | [] => 0
  | OpObserveHist id' _ :: ops' =>
      (if decide (id' = id) then 1 else 0) + count_obs id ops'
  | _ :: ops' => count_obs id ops'
  end.

(** The bucket counters of every handle add up to the number of observations
    made on it by the calls [ops]; no observation was made on a handle that
    is not allocated yet. *)
Definition bucket_sums (ops : list op) (r : registry) : Prop :=
  forall id,
    (forall b, slice_get (bhists r) id = Some (Some b) ->
       Forall (fun x => 0 <= x) (buckets b)
       /\ sum_list (buckets b) = count_obs id ops)
    /\ (curHistID r <= id -> count_obs id ops = 0).


(** [kept] as the sampling flag and [count] determine it. *)
Definition kept_matches (sampled : bool) (d : hdat) : Prop :=
  kept d = if sampled then count d / 4 else count d.

Definition kept_inv (r : registry) : Prop :=
  forall i sampled h b,
    registered r i sampled h b ->
    kept_matches sampled (prim h) /\ kept_matches sampled (sec h).

(** [kept_matches] along the two tables [hsampled] and [hists]. *)
Definition kept_table_inv (r : registry) : Prop :=
  Forall2 (fun sampled p =>
             match p with
             | Some h => kept_matches sampled (prim h) /\ kept_matches sampled (sec h)
             | None => True
             end) (hsampled r) (hists r).

(** * Proofs *)

(** ** Slices *)

Section Slices.
Context {A : Type}.
Implicit Types (s : list A) (i j : Z) (x a : A).

Lemma slice_get_bounds s i a :
  slice_get s i = Some a -> 0 <= i < Z.of_nat (length s).
Proof.
  unfold slice_get. destruct (Z.ltb_spec i 0); [discriminate|].
  intros H1%lookup_lt_Some. lia.
Qed.

Lemma slice_get_lookup s i :
  0 <= i -> slice_get s i = s !! Z.to_nat i.
Proof. unfold slice_get. destruct (Z.ltb_spec i 0); [lia|done]. Qed.

Lemma slice_get_in_range s i :
  0 <= i < Z.of_nat (length s) -> exists a, slice_get s i = Some a.
Proof.
  intros Hi. rewrite slice_get_lookup by lia.
  apply lookup_lt_is_Some_2. lia.
Qed.

Lemma slice_set_in_range s i x :
  0 <= i < Z.of_nat (length s) ->
  slice_set s i x = Some (<[Z.to_nat i := x]> s).
Proof.
  intros Hi. unfold slice_set.
  destruct (Z.leb_spec 0 i); [|lia].
  destruct (Z.ltb_spec i (Z.of_nat (length s))); [done|lia].
Qed.

Lemma slice_set_of_get s i a x :
  slice_get s i = Some a -> slice_set s i x = Some (<[Z.to_nat i := x]> s).
Proof. intros H%slice_get_bounds. by apply slice_set_in_range. Qed.

Lemma slice_set_Some s i x s' :
  slice_set s i x = Some s' ->
  0 <= i < Z.of_nat (length s) /\ s' = <[Z.to_nat i := x]> s.
Proof.
  unfold slice_set.
  destruct (Z.leb_spec 0 i), (Z.ltb_spec i (Z.of_nat (length s)));
    simpl; intros [= <-]; split; (lia || done).
Qed.

Lemma slice_get_insert_eq s i a x :
  slice_get s i = Some a -> slice_get (<[Z.to_nat i := x]> s) i = Some x.
Proof.
  intros H. pose proof (slice_get_bounds _ _ _ H).
  rewrite slice_get_lookup by lia. apply list_lookup_insert_eq. lia.
Qed.

Lemma slice_get_insert_ne s i j x :
  0 <= i -> i <> j -> slice_get (<[Z.to_nat i := x]> s) j = slice_get s j.
Proof.
  intros Hi Hne. unfold slice_get. destruct (Z.ltb_spec j 0); [done|].
  apply list_lookup_insert_ne. lia.
Qed.

Lemma slice_get_insert s i j x :
  0 <= i < Z.of_nat (length s) ->
  slice_get (<[Z.to_nat i := x]> s) j
  = if decide (i = j) then Some x else slice_get s j.
Proof.
  intros Hi. case_decide as Hij.
  - subst j. destruct (slice_get_in_range s i Hi) as [a Ha].
    by eapply slice_get_insert_eq.
  - apply slice_get_insert_ne; lia.
Qed.
End Slices.

(** ** Running the primitives *)

Lemma bind_run {A B} (m : M A) (k : A -> M B) r a r' :
  m r = (Ret a, r') -> bind m k r = k a r'.
Proof. unfold bind. by intros ->. Qed.

Lemma bind_panic {A B} (m : M A) (k : A -> M B) r e r' :
  m r = (Panic e, r') -> bind m k r = (Panic e, r').
Proof. unfold bind. by intros ->. Qed.

Lemma bind_inv {A B} (m : M A) (k : A -> M B) r o r2 :
  bind m k r = (o, r2) ->
  (exists a r1, m r = (Ret a, r1) /\ k a r1 = (o, r2))
  \/ (exists e, m r = (Panic e, r2) /\ o = Panic e).
Proof.
  unfold bind. destruct (m r) as [[a|e] r1]; intros H.
  - left. by exists a, r1.
  - right. exists e. by inversion H.
Qed.

Lemma index_run {A} (tbl : registry -> list A) i r a :
  slice_get (tbl r) i = Some a -> index tbl i r = (Ret a, r).
Proof. unfold index, bind, gets. by intros ->. Qed.

Lemma index_inv {A} (tbl : registry -> list A) i r o r' :
  index tbl i r = (o, r') ->
  r' = r /\ ((exists a, o = Ret a /\ slice_get (tbl r) i = Some a)
             \/ (o = Panic IndexOutOfRange /\ slice_get (tbl r) i = None)).
Proof.
  unfold index, bind, gets. destruct (slice_get (tbl r) i) as [a|];
    intros [= <- <-]; split; eauto.
Qed.

Lemma deref_run {A} (tbl : registry -> list (option A)) i r a :
  slice_get (tbl r) i = Some (Some a) -> deref tbl i r = (Ret a, r).
Proof. intros H. unfold deref. by rewrite (bind_run _ _ _ _ _ (index_run _ _ _ _ H)). Qed.

Lemma deref_inv {A} (tbl : registry -> list (option A)) i r o r' :
  deref tbl i r = (o, r') ->
  r' = r /\ ((exists a, o = Ret a /\ slice_get (tbl r) i = Some (Some a))
             \/ (o = Panic NilDereference /\ slice_get (tbl r) i = Some None)
             \/ (o = Panic IndexOutOfRange /\ slice_get (tbl r) i = None)).
Proof.
  unfold deref, index, bind, gets.
  destruct (slice_get (tbl r) i) as [[a|]|]; intros [= <- <-]; split; eauto.
Qed.

Lemma assign_run {A} (tbl : registry -> list A) set i x r :
  0 <= i < Z.of_nat (length (tbl r)) ->
  assign tbl set i x r = (Ret tt, set (<[Z.to_nat i := x]> (tbl r)) r).
Proof.
  intros Hi. unfold assign, bind, gets. by rewrite slice_set_in_range.
Qed.

Lemma store_prim_run id d r h :
  slice_get (hists r) id = Some (Some h) ->
  store_prim id d r
  = (Ret tt, set_hists (<[Z.to_nat id := Some (Hist d (sec h))]> (hists r)) r).
Proof.
  intros H. unfold store_prim. rewrite (bind_run _ _ _ _ _ (deref_run _ _ _ _ H)).
  apply (assign_run hists). by eapply slice_get_bounds.
Qed.

Lemma load_prim_run id r h :
  slice_get (hists r) id = Some (Some h) -> load_prim id r = (Ret (prim h), r).
Proof.
  intros H. unfold load_prim. by rewrite (bind_run _ _ _ _ _ (deref_run _ _ _ _ H)).
Qed.

Lemma atomic_AddUint64_prim_run get set id delta r h :
  slice_get (hists r) id = Some (Some h) ->
  atomic_AddUint64_prim get set id delta r
  = (Ret (wrap64 (get (prim h) + delta)),
     set_hists (<[Z.to_nat id :=
                   Some (Hist (set (wrap64 (get (prim h) + delta)) (prim h)) (sec h))]>
                  (hists r)) r).
Proof.
  intros H. unfold atomic_AddUint64_prim.
  rewrite (bind_run _ _ _ _ _ (load_prim_run _ _ _ H)).
  by rewrite (bind_run _ _ _ _ _ (store_prim_run _ _ _ _ H)).
Qed.

(** ** [lzcnt] *)

Lemma lzcnt_below_range n v : 0 <= lzcnt_below n v <= Z.of_nat n.
Proof.
  induction n as [|k IH]; simpl lzcnt_below; [lia|].
  destruct (Z.testbit v (Z.of_nat k)); lia.
Qed.

Lemma lzcnt_range v : 0 <= lzcnt v <= 64.
Proof. apply (lzcnt_below_range 64). Qed.

Lemma lzcnt_below_zero n : lzcnt_below n 0 = Z.of_nat n.
Proof.
  induction n as [|k IH]; simpl lzcnt_below; [done|].
  rewrite Z.bits_0, IH. lia.
Qed.

Lemma testbit_top k v :
  0 <= k -> 0 <= v < 2 ^ (k + 1) ->
  Z.testbit v k = (2 ^ k <=? v).
Proof.
  intros Hk [Hv0 Hv1].
  assert (Hp : 0 < 2 ^ k) by (apply Z.pow_pos_nonneg; lia).
  rewrite Z.pow_add_r, Z.pow_1_r in Hv1 by lia.
  destruct (Z.leb_spec (2 ^ k) v) as [Hle|Hlt].
  - apply Z.testbit_true; [done|].
    assert (v / 2 ^ k = 1) as ->; [|done].
    symmetry. apply (Z.div_unique v (2 ^ k) 1 (v - 2 ^ k)); lia.
  - apply Z.testbit_false; [done|]. by rewrite Z.div_small by lia.
Qed.

(** The bucket of a non-zero value [v] is the [b] with
    [2^(n-b-1) <= v < 2^(n-b)]. *)
Lemma lzcnt_below_pos n v :
  0 < v < 2 ^ Z.of_nat n ->
  2 ^ (Z.of_nat n - lzcnt_below n v - 1) <= v < 2 ^ (Z.of_nat n - lzcnt_below n v).
Proof.
  revert v. induction n as [|k IH]; intros v Hv.
  - simpl in Hv. lia.
  - simpl lzcnt_below.
    rewrite testbit_top by (replace (Z.of_nat k + 1) with (Z.of_nat (S k)); lia).
    destruct (Z.leb_spec (2 ^ Z.of_nat k) v) as [Hle|Hlt].
    + replace (Z.of_nat (S k) - 0 - 1) with (Z.of_nat k) by lia.
      replace (Z.of_nat (S k) - 0) with (Z.of_nat (S k)) by lia. lia.
    + replace (Z.of_nat (S k) - (1 + lzcnt_below k v) - 1)
        with (Z.of_nat k - lzcnt_below k v - 1) by lia.
      replace (Z.of_nat (S k) - (1 + lzcnt_below k v))
        with (Z.of_nat k - lzcnt_below k v) by lia.
      apply IH. lia.
Qed.

(** ** One observation *)

Lemma with_hist_get id h h0 r :
  slice_get (hists r) id = Some h0 ->
  slice_get (hists (with_hist id h r)) id = Some (Some h).
Proof. intros H. simpl. by eapply slice_get_insert_eq. Qed.

Lemma with_hist_twice id h1 h2 r :
  with_hist id h2 (with_hist id h1 r) = with_hist id h2 r.
Proof. unfold with_hist, set_hists. simpl. by rewrite list_insert_insert_eq. Qed.

Lemma with_hist_same id h r :
  slice_get (hists r) id = Some (Some h) -> with_hist id h r = r.
Proof.
  intros H. pose proof (slice_get_bounds _ _ _ H).
  rewrite slice_get_lookup in H by lia.
  unfold with_hist, set_hists. rewrite (list_insert_id _ _ _ H). by destruct r.
Qed.

Lemma land_buflen k : Z.land k buflen = k mod 32768.
Proof. change buflen with (Z.ones 15). by rewrite Z.land_ones. Qed.

Lemma land_buflen_range k : 0 <= Z.land k buflen < buflen + 1.
Proof.
  rewrite land_buflen. change (buflen + 1) with 32768.
  apply Z.mod_pos_bound. lia.
Qed.

Lemma set_hist_fields_id h : Hist (prim h) (sec h) = h.
Proof. by destruct h. Qed.

Lemma cond_store_prim_run (c : bool) id p f r h :
  slice_get (hists r) id = Some (Some h) -> p = prim h ->
  (if c then ret tt else store_prim id (f p)) r
  = (Ret tt, with_hist id (Hist (if c then p else f p) (sec h)) r).
Proof.
  intros H ->. destruct c.
  - rewrite set_hist_fields_id. by rewrite with_hist_same.
  - by apply store_prim_run.
Qed.

Lemma ObserveHist_run r id sampled h b value :
  registered r id sampled h b ->
  ObserveHist id value r
  = (Ret tt,
     with_bhist id (observe_bhist value b)
       (with_hist id (Hist (observe_hdat sampled value (prim h)) (sec h)) r)).
Proof.
  intros [Hh Hb Hs Hbl Hpl Hsl].
  unfold ObserveHist.
  rewrite (bind_run _ _ _ _ _ (deref_run _ _ _ _ Hh)).
  rewrite (bind_run _ _ _ _ _ (atomic_AddUint64_prim_run _ _ _ _ _ _ Hh)).
  set (p1 := set_total _ (prim h)).
  pose proof (with_hist_get id (Hist p1 (sec h)) _ r Hh) as H1.
  fold (with_hist id (Hist p1 (sec h)) r).
  set (r1 := with_hist id (Hist p1 (sec h)) r) in *.
  rewrite (bind_run _ _ _ _ _ (load_prim_run _ _ _ H1)).
  rewrite (bind_run _ _ _ _ _ (cond_store_prim_run _ _ _ _ _ _ H1 eq_refl)).
  simpl prim; simpl sec. subst r1. rewrite with_hist_twice.
  set (p2 := if value <? max p1 then p1 else set_max value p1).
  pose proof (with_hist_get id (Hist p2 (sec h)) _ r Hh) as H2.
  set (r2 := with_hist id (Hist p2 (sec h)) r) in *.
  rewrite (bind_run _ _ _ _ _ (load_prim_run _ _ _ H2)).
  rewrite (bind_run _ _ _ _ _ (cond_store_prim_run _ _ _ _ _ _ H2 eq_refl)).
  simpl prim; simpl sec. subst r2. rewrite with_hist_twice.
  set (p3 := if min p2 <? value then p2 else set_min value p2).
  pose proof (with_hist_get id (Hist p3 (sec h)) _ r Hh) as H3.
  set (r3 := with_hist id (Hist p3 (sec h)) r) in *.
  (* the bucket *)
  assert (Hb3 : slice_get (bhists r3) id = Some (Some b)) by done.
  pose proof (lzcnt_range value) as Hlz.
  destruct (slice_get_in_range (buckets b) (lzcnt value)) as [old Hold];
    [unfold bhistlen in Hbl; lia|].
  assert (Hrun_b : atomic_AddUint64_bucket id (lzcnt value) 1 r3
                   = (Ret (wrap64 (old + 1)), with_bhist id (observe_bhist value b) r3)).
  { unfold atomic_AddUint64_bucket.
    rewrite (bind_run _ _ _ _ _ (deref_run _ _ _ _ Hb3)).
    rewrite Hold, (slice_set_of_get _ _ _ _ Hold).
    rewrite (bind_run _ _ _ _ _ (assign_run bhists set_bhists id _ r3
               (slice_get_bounds _ _ _ Hb3))).
    unfold ret, with_bhist, observe_bhist. do 4 f_equal.
    rewrite slice_get_lookup in Hold by lia.
    by rewrite (list_lookup_total_correct _ _ _ Hold). }
  rewrite (bind_run _ _ _ _ _ Hrun_b).
  set (bn := observe_bhist value b).
  assert (H4 : slice_get (hists (with_bhist id bn r3)) id = Some (Some (Hist p3 (sec h))))
    by done.
  rewrite (bind_run _ _ _ _ _ (atomic_AddUint64_prim_run _ _ _ _ _ _ H4)).
  simpl prim; simpl sec.
  set (c := wrap64 (count p3 + 1)).
  set (p4 := set_count c p3).
  set (r4 := set_hists _ _).
  assert (Hr4 : r4 = with_bhist id bn (with_hist id (Hist p4 (sec h)) r)).
  { subst r4 r3. unfold with_bhist, with_hist, set_bhists, set_hists. simpl.
    by rewrite list_insert_insert_eq. }
  rewrite Hr4. clear r4 Hr4.
  set (r4 := with_bhist id bn (with_hist id (Hist p4 (sec h)) r)).
  assert (Hs4 : slice_get (hsampled r4) id = Some sampled) by done.
  rewrite (bind_run _ _ _ _ _ (index_run _ _ _ _ Hs4)).
  assert (Hobs : observe_hdat sampled value (prim h)
                 = if sampled && (0 <? Z.land c 3) then p4
                   else let k := wrap64 (kept p4 + 1) in
                        set_buf (<[Z.to_nat (Z.land k buflen) := value]> (buf (set_kept k p4)))
                          (set_kept k p4)) by done.
  rewrite Hobs.
  destruct (sampled && (0 <? Z.land c 3)); [done|].
  assert (H5 : slice_get (hists r4) id = Some (Some (Hist p4 (sec h)))).
  { subst r4. simpl. by eapply slice_get_insert_eq. }
  rewrite (bind_run _ _ _ _ _ (atomic_AddUint64_prim_run _ _ _ _ _ _ H5)).
  simpl prim; simpl sec.
  set (k := wrap64 (kept p4 + 1)).
  set (p5 := set_kept k p4).
  set (r5 := set_hists _ _).
  assert (H6 : slice_get (hists r5) id = Some (Some (Hist p5 (sec h)))).
  { subst r5. simpl. by eapply slice_get_insert_eq. }
  rewrite (bind_run _ _ _ _ _ (load_prim_run _ _ _ H6)).
  simpl prim.
  rewrite slice_set_in_range.
  2:{ pose proof (land_buflen_range k). simpl prim.
      assert (buf p5 = buf (prim h)) as -> by (subst p5 p4 p3 p2 p1;
        destruct (value <? _), (_ <? value); done). lia. }
  rewrite (store_prim_run _ _ _ _ H6). simpl sec. f_equal.
  subst r5 r4. unfold with_bhist, with_hist, set_bhists, set_hists. simpl.
  by rewrite !list_insert_insert_eq.
Qed.

Lemma observe_hdat_buf_length sampled value d :
  length (buf (observe_hdat sampled value d)) = length (buf d).
Proof.
  unfold observe_hdat.
  destruct (value <? _), (_ <? value), (sampled && _); simpl;
    by rewrite ?length_insert.
Qed.

Lemma observe_bhist_length value b :
  length (buckets (observe_bhist value b)) = length (buckets b).
Proof. unfold observe_bhist. simpl. by rewrite length_insert. Qed.

Lemma registered_with r id sampled h b h' b' :
  registered r id sampled h b ->
  length (buf (prim h')) = length (buf (prim h)) ->
  length (buf (sec h')) = length (buf (sec h)) ->
  length (buckets b') = length (buckets b) ->
  registered (with_bhist id b' (with_hist id h' r)) id sampled h' b'.
Proof.
  intros [Hh Hb Hs Hbl Hpl Hsl] E1 E2 E3. split; simpl.
  - by eapply slice_get_insert_eq.
  - by eapply slice_get_insert_eq.
  - done.
  - by rewrite E3.
  - by rewrite E1.
  - by rewrite E2.
Qed.

Lemma with_entry_twice id h1 b1 h2 b2 r :
  with_bhist id b2 (with_hist id h2 (with_bhist id b1 (with_hist id h1 r)))
  = with_bhist id b2 (with_hist id h2 r).
Proof.
  unfold with_bhist, with_hist, set_bhists, set_hists. simpl.
  by rewrite !list_insert_insert_eq.
Qed.

Lemma with_entry_same r id sampled h b :
  registered r id sampled h b -> with_bhist id b (with_hist id h r) = r.
Proof.
  intros [Hh Hb _ _ _ _].
  pose proof (slice_get_bounds _ _ _ Hh). pose proof (slice_get_bounds _ _ _ Hb).
  rewrite slice_get_lookup in Hh by lia. rewrite slice_get_lookup in Hb by lia.
  unfold with_bhist, with_hist, set_bhists, set_hists. simpl.
  rewrite (list_insert_id _ _ _ Hh), (list_insert_id _ _ _ Hb). by destruct r.
Qed.

(** A run of observations on one handle changes its primary buffer and its
    bucket counters, and nothing else. *)
Lemma observe_all_run vs : forall r id sampled h b,
  registered r id sampled h b ->
  observe_all id vs r
  = (Ret tt,
     with_bhist id (observe_all_bhist vs b)
       (with_hist id (Hist (observe_all_hdat sampled vs (prim h)) (sec h)) r)).
Proof.
  induction vs as [|v vs IH]; intros r id sampled h b Hreg.
  - simpl. unfold ret. rewrite set_hist_fields_id.
    by rewrite (with_entry_same _ _ _ _ _ Hreg).
  - simpl observe_all.
    rewrite (bind_run _ _ _ _ _ (ObserveHist_run _ _ _ _ _ v Hreg)).
    erewrite IH.
    2:{ apply (registered_with _ _ _ _ _ _ _ Hreg);
          [apply observe_hdat_buf_length | done | apply observe_bhist_length]. }
    simpl prim; simpl sec. by rewrite with_entry_twice.
Qed.

Lemma observe_all_hdat_buf_length sampled vs : forall d,
  length (buf (observe_all_hdat sampled vs d)) = length (buf d).
Proof.
  induction vs as [|v vs IH]; intros d; [done|].
  change (observe_all_hdat sampled (v :: vs) d)
    with (observe_all_hdat sampled vs (observe_hdat sampled v d)).
  by rewrite IH, observe_hdat_buf_length.
Qed.

Lemma observe_all_bhist_length vs : forall b,
  length (buckets (observe_all_bhist vs b)) = length (buckets b).
Proof.
  induction vs as [|v vs IH]; intros b; [done|].
  change (observe_all_bhist (v :: vs) b)
    with (observe_all_bhist vs (observe_bhist v b)).
  by rewrite IH, observe_bhist_length.
Qed.

Lemma observe_all_registered vs r id sampled h b :
  registered r id sampled h b ->
  registered (snd (observe_all id vs r)) id sampled
    (Hist (observe_all_hdat sampled vs (prim h)) (sec h))
    (observe_all_bhist vs b).
Proof.
  intros Hreg. rewrite (observe_all_run _ _ _ _ _ _ Hreg). simpl snd.
  apply (registered_with _ _ _ _ _ _ _ Hreg); cbn [prim sec];
    [apply observe_all_hdat_buf_length | done | apply observe_all_bhist_length].
Qed.

Lemma extractAndReset_eq h :
  extractAndReset h = (Hist (reset (sec h)) (prim h), prim h).
Proof. done. Qed.

Lemma call_extractAndReset_run r id h :
  slice_get (hists r) id = Some (Some h) ->
  call_extractAndReset id r
  = (Ret (prim h), with_hist id (Hist (reset (sec h)) (prim h)) r).
Proof.
  intros Hh. unfold call_extractAndReset.
  rewrite (bind_run _ _ _ _ _ (deref_run _ _ _ _ Hh)).
  rewrite extractAndReset_eq.
  by rewrite (bind_run _ _ _ _ _ (assign_run hists set_hists id _ r
               (slice_get_bounds _ _ _ Hh))).
Qed.

(** ** One interval, on the buffer *)

Lemma wrap64_idem_add x y : wrap64 (wrap64 x + y) = wrap64 (x + y).
Proof. unfold wrap64. by rewrite Zplus_mod_idemp_l. Qed.

Lemma wrap64_small x : 0 <= x <= MaxUint64 -> wrap64 x = x.
Proof. intros H. unfold wrap64, MaxUint64 in *. apply Z.mod_small. lia. Qed.

Lemma wrap64_range x : 0 <= wrap64 x <= MaxUint64.
Proof.
  unfold wrap64, MaxUint64.
  pose proof (Z.mod_pos_bound x (2 ^ 64)). lia.
Qed.

Lemma land3_wrap64 x : Z.land (wrap64 x) 0x3 = x mod 4.
Proof.
  change 0x3 with (Z.ones 2). rewrite Z.land_ones by lia. unfold wrap64.
  change (2 ^ 2) with 4. apply Z.mod_mod_divide.
  exists (2 ^ 62). done.
Qed.

Lemma land_buflen_wrap64 x : Z.land (wrap64 x) buflen = x mod 32768.
Proof.
  rewrite land_buflen. unfold wrap64. apply Z.mod_mod_divide.
  exists (2 ^ 49). done.
Qed.

Lemma observe_hdat_fields sampled v d :
  let d' := observe_hdat sampled v d in
  let c := wrap64 (count d + 1) in
  let keep := negb (sampled && (0 <? Z.land c 0x3)) in
  count d' = c
  /\ kept d' = (if keep then wrap64 (kept d + 1) else kept d)
  /\ total d' = wrap64 (total d + v)
  /\ max d' = Z.max (max d) v
  /\ min d' = Z.min (min d) v
  /\ buf d' = (if keep
              then <[Z.to_nat (Z.land (wrap64 (kept d + 1)) buflen) := v]> (buf d)
              else buf d).
Proof.
  unfold observe_hdat. cbn zeta.
  destruct (Z.ltb_spec v (max (set_total (wrap64 (total d + v)) d))) as [H1|H1];
    simpl in H1; simpl;
    destruct (Z.ltb_spec (min d) v); simpl;
    destruct (sampled && _); simpl; repeat split; lia.
Qed.

Lemma observe_all_hdat_spec sampled vs : forall d C K T,
  count d = wrap64 C -> kept d = wrap64 K -> total d = wrap64 T ->
  let d' := observe_all_hdat sampled vs d in
  count d' = wrap64 (C + Z.of_nat (length vs))
  /\ kept d' = wrap64 (K + Z.of_nat (length (retained sampled C vs)))
  /\ total d' = wrap64 (T + sum_list vs)
  /\ max d' = foldl Z.max (max d) vs
  /\ min d' = foldl Z.min (min d) vs
  /\ buf d' = write_all K (retained sampled C vs) (buf d).
Proof.
  induction vs as [|v vs IH]; intros d C K T HC HK HT.
  - simpl. rewrite !Z.add_0_r. done.
  - pose proof (observe_hdat_fields sampled v d) as (Fc & Fk & Ft & Fmax & Fmin & Fb).
    rewrite HC, wrap64_idem_add in Fc.
    rewrite HT, wrap64_idem_add in Ft.
    rewrite HC, wrap64_idem_add, land3_wrap64 in Fk, Fb.
    rewrite HK, wrap64_idem_add in Fk, Fb. rewrite land_buflen_wrap64 in Fb.
    unfold observe_all_hdat. simpl foldl. simpl retained. simpl sum_list.
    fold (sum_list vs).
    fold (observe_all_hdat sampled vs (observe_hdat sampled v d)).
    assert (Hcond : (0 <? (C + 1) mod 4) = negb ((C + 1) mod 4 =? 0)).
    { pose proof (Z.mod_pos_bound (C + 1) 4).
      destruct (Z.ltb_spec 0 ((C + 1) mod 4)), (Z.eqb_spec ((C + 1) mod 4) 0);
        simpl; lia. }
    rewrite Hcond in Fk, Fb.
    destruct (sampled && negb ((C + 1) mod 4 =? 0)); simpl in Fk, Fb.
    + destruct (IH _ (C + 1) K (T + v) Fc Fk Ft) as (Ic & Ik & It & Imax & Imin & Ib).
      rewrite Ic, Ik, It, Imax, Imin, Ib, Fmax, Fmin, Fb. simpl length.
      repeat split; f_equal; lia.
    + destruct (IH _ (C + 1) (K + 1) (T + v) Fc Fk Ft) as (Ic & Ik & It & Imax & Imin & Ib).
      rewrite Ic, Ik, It, Imax, Imin, Ib, Fmax, Fmin, Fb. simpl length.
      repeat split; f_equal; lia.
Qed.

(** *** Minimum and maximum *)

Lemma foldl_max_spec vs : forall m0,
  let m := foldl Z.max m0 vs in
  (m = m0 \/ m ∈ vs) /\ m0 <= m /\ (forall v, v ∈ vs -> v <= m).
Proof.
  induction vs as [|x vs IH]; intros m0; simpl.
  - split; [by left|]. split; [lia|]. intros v Hv. by apply not_elem_of_nil in Hv.
  - destruct (IH (Z.max m0 x)) as ([E|E] & Hle & Hall); repeat split.
    + rewrite E. destruct (Z.max_spec m0 x) as [[_ E']|[_ E']]; rewrite E'.
      * right. by left.
      * by left.
    + lia.
    + intros v [->|Hv]%elem_of_cons; [lia|by apply Hall].
    + right. by right.
    + lia.
    + intros v [->|Hv]%elem_of_cons; [lia|by apply Hall].
Qed.

Lemma foldl_min_spec vs : forall m0,
  let m := foldl Z.min m0 vs in
  (m = m0 \/ m ∈ vs) /\ m <= m0 /\ (forall v, v ∈ vs -> m <= v).
Proof.
  induction vs as [|x vs IH]; intros m0; simpl.
  - split; [by left|]. split; [lia|]. intros v Hv. by apply not_elem_of_nil in Hv.
  - destruct (IH (Z.min m0 x)) as ([E|E] & Hle & Hall); repeat split.
    + rewrite E. destruct (Z.min_spec m0 x) as [[_ E']|[_ E']]; rewrite E'.
      * by left.
      * right. by left.
    + lia.
    + intros v [->|Hv]%elem_of_cons; [lia|by apply Hall].
    + right. by right.
    + lia.
    + intros v [->|Hv]%elem_of_cons; [lia|by apply Hall].
Qed.

(** From the sentinels of a fresh buffer, a non-empty run of [uint64] values
    leaves its true minimum and maximum. *)
Lemma foldl_max_fresh vs :
  vs <> [] -> Forall (fun v => 0 <= v <= MaxUint64) vs ->
  foldl Z.max 0 vs ∈ vs /\ (forall v, v ∈ vs -> v <= foldl Z.max 0 vs).
Proof.
  intros Hne Hall. destruct (foldl_max_spec vs 0) as ([E|E] & Hle & Hub).
  - split; [|done]. destruct vs as [|x vs]; [done|].
    assert (x = foldl Z.max 0 (x :: vs)) as <-; [|by left].
    apply Forall_cons in Hall as [Hx _]. specialize (Hub x (list_elem_of_here _ _)). lia.
  - done.
Qed.

Lemma foldl_min_fresh vs :
  vs <> [] -> Forall (fun v => 0 <= v <= MaxUint64) vs ->
  foldl Z.min MaxUint64 vs ∈ vs
  /\ (forall v, v ∈ vs -> foldl Z.min MaxUint64 vs <= v).
Proof.
  intros Hne Hall. destruct (foldl_min_spec vs MaxUint64) as ([E|E] & Hle & Hlb).
  - split; [|done]. destruct vs as [|x vs]; [done|].
    assert (x = foldl Z.min MaxUint64 (x :: vs)) as <-; [|by left].
    apply Forall_cons in Hall as [Hx _]. specialize (Hlb x (list_elem_of_here _ _)). lia.
  - done.
Qed.

(** *** Which observations are retained *)

Lemma retained_unsampled vs : forall c, retained false c vs = vs.
Proof. induction vs as [|v vs IH]; intros c; simpl; [done|]. by rewrite IH. Qed.

Lemma retained_elem sampled vs : forall c v,
  v ∈ retained sampled c vs -> v ∈ vs.
Proof.
  induction vs as [|x vs IH]; intros c v; simpl; [done|].
  destruct (sampled && _).
  - intros H. right. by eapply IH.
  - intros [->|H]%elem_of_cons; [by left|]. right. by eapply IH.
Qed.

(** With sampling, the observations numbered [c + 1 .. c + n] contain as many
    retained ones as there are multiples of four among those numbers. *)
Lemma retained_sampled_length vs : forall c,
  0 <= c ->
  Z.of_nat (length (retained true c vs))
  = (c + Z.of_nat (length vs)) / 4 - c / 4.
Proof.
  induction vs as [|v vs IH]; intros c Hc.
  - simpl. rewrite Z.add_0_r. lia.
  - simpl retained. simpl andb.
    destruct (Z.eqb_spec ((c + 1) mod 4) 0) as [E|E]; simpl negb; cbv iota.
    + assert (E4 : (c + 1) / 4 = c / 4 + 1) by (clear IH; Z.div_mod_to_equations; lia).
      cbn [length]. rewrite !Nat2Z.inj_succ, IH by lia.
      replace (c + Z.succ (Z.of_nat (length vs)))
        with (c + 1 + Z.of_nat (length vs)) by lia.
      lia.
    + assert (E4 : (c + 1) / 4 = c / 4) by (clear IH; Z.div_mod_to_equations; lia).
      cbn [length]. rewrite !Nat2Z.inj_succ, IH by lia.
      replace (c + Z.succ (Z.of_nat (length vs)))
        with (c + 1 + Z.of_nat (length vs)) by lia.
      lia.
Qed.

(** *** The sample buffer as a ring *)

Lemma write_all_length rs : forall k b, length (write_all k rs b) = length b.
Proof.
  induction rs as [|v rs IH]; intros k b; simpl; [done|].
  by rewrite IH, length_insert.
Qed.

(** A slot that none of the writes addresses keeps its content. *)
Lemma write_all_untouched rs : forall k b (j : nat),
  (forall i, 1 <= i <= Z.of_nat (length rs) -> Z.to_nat ((k + i) mod 32768) <> j) ->
  write_all k rs b !! j = b !! j.
Proof.
  induction rs as [|v rs IH]; intros k b j Hj; simpl; [done|].
  rewrite IH.
  - apply list_lookup_insert_ne. apply Hj. simpl length. lia.
  - intros i Hi. replace (k + 1 + i) with (k + (i + 1)) by lia.
    apply Hj. simpl length. lia.
Qed.

Lemma mod_32768_apart a i :
  0 < i < 32768 -> (a + i) mod 32768 <> a mod 32768.
Proof.
  intros Hi E. Z.div_mod_to_equations. lia.
Qed.

(** The [i]-th retained value sits in slot [(k + i) mod 32768] as long as
    fewer than 32768 retained values follow it. *)
Lemma write_all_recent rs : forall k b i,
  Z.of_nat (length b) = 32768 ->
  1 <= i <= Z.of_nat (length rs) ->
  Z.of_nat (length rs) - 32768 < i ->
  write_all k rs b !! Z.to_nat ((k + i) mod 32768) = rs !! Z.to_nat (i - 1).
Proof.
  induction rs as [|v rs IH]; intros k b i Hb Hi Hrecent.
  - simpl in Hi. lia.
  - simpl write_all. simpl length in Hi, Hrecent.
    destruct (Z.eq_dec i 1) as [->|Hne].
    + rewrite write_all_untouched.
      * simpl. apply list_lookup_insert_eq.
        pose proof (Z.mod_pos_bound (k + 1) 32768). lia.
      * intros i' Hi' E. apply Z2Nat.inj in E;
          [|apply Z.mod_pos_bound; lia|apply Z.mod_pos_bound; lia].
        apply (mod_32768_apart (k + 1) i'); [lia|done].
    + replace (k + i) with (k + 1 + (i - 1)) by lia.
      rewrite IH; [|by rewrite length_insert|lia|lia].
      replace (Z.to_nat (i - 1)) with (S (Z.to_nat (i - 1 - 1))) by lia. done.
Qed.

(** Once 32768 values were retained, every slot holds one of them. *)
Lemma write_all_full rs k b x :
  Z.of_nat (length b) = 32768 -> 32768 <= Z.of_nat (length rs) ->
  x ∈ write_all k rs b -> x ∈ rs.
Proof.
  intros Hb Hn [j Hj]%list_elem_of_lookup.
  pose proof (lookup_lt_Some _ _ _ Hj) as Hlt. rewrite write_all_length in Hlt.
  set (n := Z.of_nat (length rs)) in *.
  set (i := n - (k + n - Z.of_nat j) mod 32768).
  pose proof (Z.mod_pos_bound (k + n - Z.of_nat j) 32768) as Hm.
  assert (Hslot : (k + i) mod 32768 = Z.of_nat j).
  { subst i. clear Hj. Z.div_mod_to_equations. lia. }
  pose proof (write_all_recent rs k b i Hb) as Hrec.
  rewrite Hslot, Nat2Z.id, Hj in Hrec.
  eapply list_elem_of_lookup_2. symmetry. apply Hrec; subst i; lia.
Qed.

(** ** One interval, through the package functions *)

(** The snapshot of an interval is the primary buffer as the observations
    left it. *)
Lemma observe_then_extract_run r id sampled h b vs :
  registered r id sampled h b ->
  fst (observe_then_extract id vs r)
  = Ret (observe_all_hdat sampled vs (prim h)).
Proof.
  intros Hreg. unfold observe_then_extract.
  rewrite (bind_run _ _ _ _ _ (observe_all_run vs _ _ _ _ _ Hreg)).
  rewrite (call_extractAndReset_run _ _
             (Hist (observe_all_hdat sampled vs (prim h)) (sec h))); [done|].
  simpl. eapply slice_get_insert_eq. apply Hreg.
Qed.

Lemma fresh_spec sampled vs d :
  fresh d ->
  let d' := observe_all_hdat sampled vs d in
  count d' = wrap64 (Z.of_nat (length vs))
  /\ kept d' = wrap64 (Z.of_nat (length (retained sampled 0 vs)))
  /\ total d' = wrap64 (sum_list vs)
  /\ max d' = foldl Z.max 0 vs
  /\ min d' = foldl Z.min MaxUint64 vs
  /\ buf d' = write_all 0 (retained sampled 0 vs) (buf d).
Proof.
  intros (Hc & Hk & Ht & Hmax & Hmin).
  pose proof (observe_all_hdat_spec sampled vs d 0 0 0) as H.
  rewrite Hmax, Hmin in H. rewrite !Z.add_0_l in H. by apply H.
Qed.

Lemma fresh_newHdat : fresh newHdat.
Proof. repeat split. Qed.

(** ** Buckets *)

Lemma lzcnt_below_bits n v :
  (forall i, Z.of_nat n - lzcnt_below n v <= i < Z.of_nat n -> Z.testbit v i = false)
  /\ (lzcnt_below n v < Z.of_nat n ->
      Z.testbit v (Z.of_nat n - lzcnt_below n v - 1) = true).
Proof.
  induction n as [|k [IH1 IH2]]; simpl lzcnt_below.
  - split; intros; lia.
  - destruct (Z.testbit v (Z.of_nat k)) eqn:Hbit.
    + split; [intros; lia|]. intros _.
      by replace (Z.of_nat (S k) - 0 - 1) with (Z.of_nat k) by lia.
    + split.
      * intros i Hi. destruct (Z.eq_dec i (Z.of_nat k)) as [->|Hne]; [done|].
        apply IH1. lia.
      * intros Hlt.
        replace (Z.of_nat (S k) - (1 + lzcnt_below k v) - 1)
          with (Z.of_nat k - lzcnt_below k v - 1) by lia.
        apply IH2. lia.
Qed.

Lemma extractBHist_loop_spec b n : forall i ret_,
  Z.of_nat (length (buckets b)) = i + Z.of_nat n ->
  length ret_ = length (buckets b) ->
  0 <= i ->
  extractBHist_loop b n i ret_
  = Ret (take (Z.to_nat i) ret_ ++ drop (Z.to_nat i) (buckets b)).
Proof.
  induction n as [|n IH]; intros i ret_ Hlen Hret Hi; simpl.
  - rewrite take_ge, drop_ge by lia. by rewrite app_nil_r.
  - destruct (slice_get_in_range (buckets b) i) as [x Hx]; [lia|].
    rewrite Hx, slice_set_in_range by lia.
    rewrite IH by (rewrite ?length_insert; lia).
    rewrite slice_get_lookup in Hx by lia.
    replace (Z.to_nat (i + 1)) with (S (Z.to_nat i)) by lia.
    rewrite (take_S_r _ _ x) by (apply list_lookup_insert_eq; lia).
    rewrite take_insert_ge by lia.
    rewrite (drop_S _ _ _ Hx). by rewrite <- app_assoc.
Qed.

Lemma extractBHist_copy b :
  Z.of_nat (length (buckets b)) = bhistlen -> extractBHist b = Ret (buckets b).
Proof.
  intros Hlen. unfold extractBHist.
  rewrite extractBHist_loop_spec; [done|unfold bhistlen in *; lia| |lia].
  rewrite length_replicate. unfold bhistlen in *. lia.
Qed.

(** ** The sample buffer *)

Lemma snapshot_buf r id sampled h b vs :
  registered r id sampled h b ->
  fresh (prim h) ->
  exists snap,
    fst (observe_then_extract id vs r) = Ret snap
    /\ buf snap = write_all 0 (retained sampled 0 vs) (buf (prim h))
    /\ Z.of_nat (length (buf snap)) = 32768.
Proof.
  intros Hreg Hfresh.
  exists (observe_all_hdat sampled vs (prim h)).
  split; [by eapply observe_then_extract_run|].
  destruct (fresh_spec sampled vs _ Hfresh) as (_ & _ & _ & _ & _ & Hb).
  split; [done|]. rewrite observe_all_hdat_buf_length. apply Hreg.
Qed.

(** ** Sequences of calls *)

(** ** Registration *)

Lemma wrap32_small x : 0 <= x < 2 ^ 32 -> wrap32 x = x.
Proof. intros H. unfold wrap32. by apply Z.mod_small. Qed.

Lemma AddHistogram_run name sampled r :
  wf r -> curHistID r < maxNumHists ->
  AddHistogram name sampled r
  = (Ret (curHistID r),
     Registry (<[Z.to_nat (curHistID r) := name]> (hnames r))
              (<[Z.to_nat (curHistID r) := sampled]> (hsampled r))
              (<[Z.to_nat (curHistID r) := Some newHist]> (hists r))
              (<[Z.to_nat (curHistID r) := Some newBHist]> (bhists r))
              (curHistID r + 1)).
Proof.
  intros [Hn Hs Hh Hb Hc _ _ _] Hlt. unfold maxNumHists in *.
  unfold AddHistogram, atomic_AddUint32_curHistID.
  unfold bind at 1. unfold bind at 1. unfold gets at 1. unfold bind at 1.
  unfold modify at 1. unfold ret at 1.
  rewrite (wrap32_small (curHistID r + 1)) by lia.
  replace (curHistID r + 1 - 1) with (curHistID r) by lia.
  rewrite wrap32_small by lia.
  destruct (Z.leb_spec maxNumHists (curHistID r)) as [Hge|_];
    [unfold maxNumHists in Hge; lia|].
  erewrite bind_run by (apply (assign_run hnames set_hnames); simpl; lia).
  erewrite bind_run by (apply (assign_run hsampled set_hsampled); simpl;
                        rewrite ?length_insert; lia).
  erewrite bind_run by (apply (assign_run hists set_hists); simpl;
                        rewrite ?length_insert; lia).
  erewrite bind_run by (apply (assign_run bhists set_bhists); simpl;
                        rewrite ?length_insert; lia).
  done.
Qed.

Lemma AddHistogram_full name sampled r :
  curHistID r = maxNumHists ->
  AddHistogram name sampled r
  = (Panic (PanicString "Too many histograms"),
     set_curHistID (maxNumHists + 1) r).
Proof.
  intros Hc. unfold AddHistogram, atomic_AddUint32_curHistID.
  unfold bind at 1. unfold bind at 1. unfold gets at 1. unfold bind at 1.
  unfold modify at 1. unfold ret at 1.
  rewrite Hc. done.
Qed.

Lemma dat_ok_newHdat C : 0 <= C -> dat_ok C newHdat.
Proof. intros HC. unfold dat_ok. simpl. unfold MaxUint64. lia. Qed.

Lemma dat_ok_mono C C' d : C <= C' -> dat_ok C d -> dat_ok C' d.
Proof. unfold dat_ok. intros HC (H1 & H2 & H3 & H4). repeat split; try lia; tauto. Qed.

Lemma dat_ok_buffer_inv C d : dat_ok C d -> buffer_inv d.
Proof. unfold dat_ok, buffer_inv. intros (H1 & H2 & H3 & H4). repeat split; try lia; tauto. Qed.

Lemma bounded_mono C C' r : C <= C' -> bounded C r -> bounded C' r.
Proof.
  intros HC [Hh Hb]. split.
  - intros i h Hi. destruct (Hh i h Hi). split; by eapply dat_ok_mono.
  - intros i b Hi. eapply Forall_impl; [by eapply Hb|]. simpl. lia.
Qed.

Lemma slice_get_replicate_None {A} n (i : Z) (a : A) :
  slice_get (replicate n (@None A)) i <> Some (Some a).
Proof.
  unfold slice_get. destruct (i <? 0); [done|].
  intros H. apply lookup_replicate in H as [H _]. done.
Qed.

Lemma wf_init : wf init_registry.
Proof.
  unfold init_registry.
  split; cbn [hnames hsampled hists bhists curHistID];
    rewrite ?length_replicate; try (unfold maxNumHists; lia).
  - intros i h _. apply slice_get_replicate_None.
  - intros i b _. apply slice_get_replicate_None.
Qed.

Lemma bounded_init : bounded 0 init_registry.
Proof.
  unfold init_registry.
  split; cbn [hists bhists]; intros i x H; by apply slice_get_replicate_None in H.
Qed.

Lemma AddHistogram_wf name sampled r :
  wf r -> curHistID r < maxNumHists ->
  wf (snd (AddHistogram name sampled r))
  /\ registered (snd (AddHistogram name sampled r)) (curHistID r) sampled
       newHist newBHist
  /\ slice_get (hnames (snd (AddHistogram name sampled r))) (curHistID r)
     = Some name.
Proof.
  intros Hwf Hlt. rewrite AddHistogram_run by done.
  destruct Hwf as [Hn Hs Hh Hb Hc Hreg Hu1 Hu2]. simpl snd.
  set (k := curHistID r) in *.
  assert (Hnew : registered
            (Registry (<[Z.to_nat k := name]> (hnames r))
               (<[Z.to_nat k := sampled]> (hsampled r))
               (<[Z.to_nat k := Some newHist]> (hists r))
               (<[Z.to_nat k := Some newBHist]> (bhists r)) (k + 1))
            k sampled newHist newBHist).
  { split; cbn [hnames hsampled hists bhists];
      [rewrite slice_get_insert, decide_True by (done || lia); done..
      |vm_compute; reflexivity|vm_compute; reflexivity|vm_compute; reflexivity]. }
  split; [|split; [done|]].
  - split; simpl; rewrite ?length_insert; try lia.
    + intros i Hi. destruct (Z.eq_dec i k) as [->|Hne]; [eauto|].
      destruct (Hreg i) as (s & h & b & [R1 R2 R3 R4 R5 R6]); [lia|].
      exists s, h, b. split; simpl; try done;
        rewrite slice_get_insert_ne by lia; done.
    + intros i h Hi. rewrite slice_get_insert_ne by lia. apply Hu1. lia.
    + intros i b Hi. rewrite slice_get_insert_ne by lia. apply Hu2. lia.
  - simpl. rewrite slice_get_insert, decide_True by (done || lia). done.
Qed.

Lemma registry_with_one_registered name sampled :
  registered (registry_with_one name sampled) 0 sampled newHist newBHist.
Proof.
  apply (AddHistogram_wf name sampled init_registry wf_init).
  unfold init_registry, maxNumHists. cbn [curHistID]. lia.
Qed.

Lemma newBHist_ok C : 0 <= C -> Forall (fun x => 0 <= x <= C) (buckets newBHist).
Proof. intros HC. unfold newBHist. cbn [buckets]. apply Forall_replicate. lia. Qed.

Lemma AddHistogram_bounded name sampled r C :
  wf r -> curHistID r < maxNumHists -> 0 <= C -> bounded C r ->
  bounded C (snd (AddHistogram name sampled r)).
Proof.
  intros Hwf Hlt HC [Bh Bb]. rewrite AddHistogram_run by done.
  destruct Hwf as [Hn Hs Hh Hb Hc Hreg Hu1 Hu2]. cbn [snd].
  split; cbn [hists bhists].
  - intros i h. rewrite slice_get_insert by lia. case_decide.
    + intros [= <-]. split; by apply dat_ok_newHdat.
    + apply Bh.
  - intros i b. rewrite slice_get_insert by lia. case_decide.
    + intros [= <-]. by apply newBHist_ok.
    + apply Bb.
Qed.

(** ** Updating one registered entry *)

Lemma registered_below_cur r id sampled h b :
  wf r -> registered r id sampled h b -> 0 <= id < curHistID r.
Proof.
  intros Hwf Hreg. pose proof (slice_get_bounds _ _ _ (reg_hist _ _ _ _ _ Hreg)).
  destruct (Z.lt_ge_cases id (curHistID r)) as [|Hge]; [lia|].
  by destruct (wf_unreg_hists _ Hwf id h Hge (reg_hist _ _ _ _ _ Hreg)).
Qed.

Lemma registered_functional r id s1 h1 b1 s2 h2 b2 :
  registered r id s1 h1 b1 -> registered r id s2 h2 b2 ->
  s1 = s2 /\ h1 = h2 /\ b1 = b2.
Proof.
  intros [A1 A2 A3 _ _ _] [B1 B2 B3 _ _ _].
  rewrite A1 in B1. rewrite A2 in B2. rewrite A3 in B3.
  by inversion B1; inversion B2; inversion B3.
Qed.

Lemma wf_with_entry r id sampled h b h' b' :
  wf r -> registered r id sampled h b ->
  length (buf (prim h')) = length (buf (prim h)) ->
  length (buf (sec h')) = length (buf (sec h)) ->
  length (buckets b') = length (buckets b) ->
  wf (with_bhist id b' (with_hist id h' r)).
Proof.
  intros Hwf Hreg E1 E2 E3.
  pose proof (registered_below_cur _ _ _ _ _ Hwf Hreg) as Hid.
  destruct Hwf as [Hn Hs Hh Hb Hc Hr Hu1 Hu2].
  split; simpl; rewrite ?length_insert; try done.
  - intros i Hi. destruct (Z.eq_dec i id) as [->|Hne].
    + exists sampled, h', b'. by eapply registered_with.
    + destruct (Hr i Hi) as (s & hi & bi & [R1 R2 R3 R4 R5 R6]).
      exists s, hi, bi. split; simpl; try done;
        rewrite slice_get_insert_ne by lia; done.
  - intros i hi Hi. rewrite slice_get_insert_ne by lia. by apply Hu1.
  - intros i bi Hi. rewrite slice_get_insert_ne by lia. by apply Hu2.
Qed.

Lemma bounded_with_entry C r id h' b' :
  bounded C r -> 0 <= id < Z.of_nat (length (hists r)) ->
  length (hists r) = length (bhists r) ->
  dat_ok C (prim h') -> dat_ok C (sec h') ->
  Forall (fun x => 0 <= x <= C) (buckets b') ->
  bounded C (with_bhist id b' (with_hist id h' r)).
Proof.
  intros [Bh Bb] Hid Hlen Hp Hs Hb'. split; simpl.
  - intros i h. rewrite slice_get_insert by lia. case_decide.
    + by intros [= <-].
    + apply Bh.
  - intros i b. rewrite slice_get_insert by lia. case_decide.
    + by intros [= <-].
    + apply Bb.
Qed.

Lemma with_bhist_same r id b :
  slice_get (bhists r) id = Some (Some b) -> with_bhist id b r = r.
Proof.
  intros H. pose proof (slice_get_bounds _ _ _ H).
  rewrite slice_get_lookup in H by lia.
  unfold with_bhist, set_bhists. rewrite (list_insert_id _ _ _ H). by destruct r.
Qed.

(** One observation keeps a buffer in order, as long as its counter has room. *)
Lemma observe_hdat_ok C sampled v d :
  dat_ok C d -> C < MaxUint64 -> 0 <= v <= MaxUint64 ->
  dat_ok (C + 1) (observe_hdat sampled v d).
Proof.
  intros (Hk & Hc & Hpos & Hzero) HC Hv.
  pose proof (observe_hdat_fields sampled v d) as (Fc & Fk & _ & Fmax & Fmin & _).
  cbv zeta in *.
  rewrite (wrap64_small (count d + 1)) in Fc, Fk by lia.
  rewrite (wrap64_small (kept d + 1)) in Fk by lia.
  unfold dat_ok. rewrite Fc, Fk, Fmax, Fmin.
  assert (Hk' : 0 <= (if negb (sampled && (0 <? Z.land (count d + 1) 3))
                      then kept d + 1 else kept d) <= count d + 1)
    by (destruct (negb _); lia).
  split; [done|]. split; [lia|]. split; [|lia].
  intros _. destruct (Z.eq_dec (count d) 0) as [E|E].
  - destruct (Hzero E) as [-> ->]. unfold MaxUint64 in *. lia.
  - assert (0 < count d) as Hp by lia. specialize (Hpos Hp). lia.
Qed.

Lemma observe_bhist_ok C v b :
  Z.of_nat (length (buckets b)) = bhistlen ->
  Forall (fun x => 0 <= x <= C) (buckets b) -> C < MaxUint64 ->
  Forall (fun x => 0 <= x <= C + 1) (buckets (observe_bhist v b)).
Proof.
  intros Hlen Hb HC. unfold observe_bhist. cbn [buckets].
  pose proof (lzcnt_range v) as Hlz.
  destruct (lookup_lt_is_Some_2 (buckets b) (Z.to_nat (lzcnt v))) as [x E];
    [unfold bhistlen in Hlen; lia|].
  apply Forall_insert.
  - eapply Forall_impl; [done|]. simpl. lia.
  - rewrite (list_lookup_total_correct _ _ _ E).
    pose proof (Forall_lookup_1 _ _ _ _ Hb E) as Hx. simpl in Hx.
    rewrite wrap64_small; lia.
Qed.

Lemma reset_fresh d : fresh (reset d).
Proof. repeat split. Qed.

Lemma dat_ok_reset C d : 0 <= C -> dat_ok C (reset d).
Proof. intros HC. unfold dat_ok. simpl. unfold MaxUint64. lia. Qed.

(** ** The two exports *)

Section FoldEntries.
Context {V : Type}.
Implicit Types (entry : Z -> option (string * V)) (acc : gmap string V).

Lemma fold_entries_ext entry1 entry2 acc js :
  (forall j, j ∈ js -> entry1 j = entry2 j) ->
  fold_entries entry1 acc js = fold_entries entry2 acc js.
Proof.
  revert acc. induction js as [|j js IH]; intros acc Hext; [done|].
  unfold fold_entries in *. simpl.
  rewrite (Hext j) by (by left). apply IH. intros j' Hj'. apply Hext. by right.
Qed.

Lemma fold_entries_app entry acc js1 js2 :
  fold_entries entry acc (js1 ++ js2)
  = fold_entries entry (fold_entries entry acc js1) js2.
Proof. unfold fold_entries. by rewrite foldl_app. Qed.

(** A key that no entry of [js] carries is left as it was. *)
Lemma fold_entries_other entry acc js k :
  (forall j v, j ∈ js -> entry j <> Some (k, v)) ->
  fold_entries entry acc js !! k = acc !! k.
Proof.
  revert acc. induction js as [|j js IH]; intros acc Hk; [done|].
  unfold fold_entries in *. simpl. rewrite IH.
  - destruct (entry j) as [[k' v]|] eqn:E; [|done].
    apply lookup_insert_ne. intros ->. by apply (Hk j v); [left|].
  - intros j' v Hj'. apply Hk. by right.
Qed.

(** Last one wins: the value under [k] is that of the last handle of [js]
    whose entry has key [k]. *)
Lemma fold_entries_last entry acc js1 j js2 k v :
  entry j = Some (k, v) ->
  (forall j' v', j' ∈ js2 -> entry j' <> Some (k, v')) ->
  fold_entries entry acc (js1 ++ j :: js2) !! k = Some v.
Proof.
  intros Hj Hlater. rewrite fold_entries_app.
  change (j :: js2) with ([j] ++ js2). rewrite fold_entries_app.
  rewrite fold_entries_other by done.
  unfold fold_entries. simpl. rewrite Hj. apply lookup_insert_eq.
Qed.

Lemma fold_entries_lookup entry acc js k v :
  fold_entries entry acc js !! k = Some v ->
  acc !! k = Some v \/ exists j, j ∈ js /\ entry j = Some (k, v).
Proof.
  revert acc. induction js as [|j js IH]; intros acc H; [by left|].
  unfold fold_entries in *. simpl in H. apply IH in H as [H|(j' & Hj' & E)].
  - destruct (entry j) as [[k' v']|] eqn:E; [|by left].
    destruct (decide (k' = k)) as [->|Hne].
    + rewrite lookup_insert_eq in H. injection H as ->.
      right. exists j. split; [by left|done].
    + rewrite lookup_insert_ne in H by done. by left.
  - right. exists j'. split; [by right|done].
Qed.
Lemma fold_entries_is_Some entry js : forall acc k,
  is_Some (acc !! k) \/ (exists j v, j ∈ js /\ entry j = Some (k, v)) ->
  is_Some (fold_entries entry acc js !! k).
Proof.
  induction js as [|j js IH]; intros acc k H.
  - destruct H as [H|(j & v & Hj & _)]; [done|by apply not_elem_of_nil in Hj].
  - unfold fold_entries in *. cbn [foldl]. apply IH.
    destruct H as [H|(j' & v & [->|Hj']%elem_of_cons & E)].
    + left. destruct (entry j) as [[k' v']|]; [|done].
      destruct (decide (k' = k)) as [->|Hne].
      * rewrite lookup_insert_eq. by eexists.
      * by rewrite lookup_insert_ne.
    + left. rewrite E, lookup_insert_eq. by eexists.
    + right. by exists j', v.
Qed.
End FoldEntries.

Lemma extract_hists_get lo hi r j :
  slice_get (hists (extract_hists lo hi r)) j
  = if (lo <=? j) && (j <? hi)
    then option_map extracted (slice_get (hists r) j)
    else slice_get (hists r) j.
Proof.
  unfold extract_hists, slice_get. cbn [hists set_hists].
  destruct (Z.ltb_spec j 0) as [Hneg|Hnn].
  - by destruct (_ && _).
  - rewrite list_lookup_imap, Z2Nat.id by lia.
    destruct (_ && _); [done|]. by destruct (hists r !! Z.to_nat j).
Qed.

Lemma extract_hists_empty lo r : extract_hists lo lo r = r.
Proof.
  unfold extract_hists, set_hists. destruct r as [n s hs bs c]. cbn.
  f_equal. apply list_eq. intros j. rewrite list_lookup_imap.
  destruct (Z.leb_spec lo (Z.of_nat j)), (Z.ltb_spec (Z.of_nat j) lo);
    try lia; by destruct (hs !! j).
Qed.

Lemma extract_hists_step i hi r h :
  0 <= i < hi ->
  slice_get (hists r) i = Some (Some h) ->
  extract_hists (i + 1) hi (with_hist i (fst (extractAndReset h)) r)
  = extract_hists i hi r.
Proof.
  intros Hi Hh. pose proof (slice_get_bounds _ _ _ Hh) as Hb.
  rewrite slice_get_lookup in Hh by lia.
  unfold extract_hists, with_hist, set_hists. destruct r as [n s hs bs c]. cbn in *.
  f_equal. apply list_eq. intros j. rewrite !list_lookup_imap.
  destruct (decide (j = Z.to_nat i)) as [->|Hne].
  - rewrite list_lookup_insert_eq by lia. rewrite Hh. cbn.
    rewrite Z2Nat.id by lia.
    destruct (Z.leb_spec (i + 1) i), (Z.leb_spec i i), (Z.ltb_spec i hi);
      try lia; done.
  - rewrite list_lookup_insert_ne by done.
    destruct (hs !! j) as [p|]; [|done]. cbn.
    destruct (Z.leb_spec (i + 1) (Z.of_nat j)), (Z.leb_spec i (Z.of_nat j)),
      (Z.ltb_spec (Z.of_nat j) hi); try lia; done.
Qed.

Lemma name_in_range r i :
  wf r -> 0 <= i < curHistID r -> exists name, slice_get (hnames r) i = Some name.
Proof.
  intros Hwf Hi. apply slice_get_in_range.
  pose proof (wf_hnames _ Hwf). pose proof (wf_cur _ Hwf). lia.
Qed.

Lemma extract_entry_wf r i sampled h b :
  wf r -> registered r i sampled h b ->
  wf (with_hist i (fst (extractAndReset h)) r)
  /\ (forall C, 0 <= C -> bounded C r ->
      bounded C (with_hist i (fst (extractAndReset h)) r)).
Proof.
  intros Hwf Hreg.
  assert (E : with_hist i (fst (extractAndReset h)) r
              = with_bhist i b (with_hist i (fst (extractAndReset h)) r)).
  { symmetry. apply with_bhist_same. apply Hreg. }
  rewrite E. split.
  - pose proof (reg_prim_buf _ _ _ _ _ Hreg) as Hp.
    pose proof (reg_sec_buf _ _ _ _ _ Hreg) as Hs.
    eapply wf_with_entry; [done..| | |done]; rewrite extractAndReset_eq;
      cbn [fst prim sec reset set_min set_max set_total set_kept set_count buf];
      lia.
  - intros C HC HB.
    pose proof (bounded_hists _ _ HB _ _ (reg_hist _ _ _ _ _ Hreg)) as [Hp Hs].
    apply bounded_with_entry.
    + done.
    + eapply slice_get_bounds. apply Hreg.
    + pose proof (wf_hists _ Hwf). pose proof (wf_bhists _ Hwf). lia.
    + rewrite extractAndReset_eq. by apply dat_ok_reset.
    + by rewrite extractAndReset_eq.
    + eapply (bounded_bhists _ _ HB). apply Hreg.
Qed.

Lemma getAllHistograms_loop n : forall i acc r,
  wf r -> 0 <= i -> i + Z.of_nat n <= curHistID r ->
  for_loop n i getAllHistograms_body acc r
  = (Ret (fold_entries (snapshot_entry r) acc (seqZ i (Z.of_nat n))),
     extract_hists i (i + Z.of_nat n) r)
  /\ wf (extract_hists i (i + Z.of_nat n) r)
  /\ (forall C, 0 <= C -> bounded C r ->
      bounded C (extract_hists i (i + Z.of_nat n) r)).
Proof.
  induction n as [|n IH]; intros i acc r Hwf Hi Hn.
  - simpl for_loop. rewrite Z.add_0_r, extract_hists_empty. done.
  - destruct (wf_reg _ Hwf i) as (s & h & b & Hreg); [lia|].
    destruct (name_in_range r i Hwf) as [name Hname]; [lia|].
    pose proof (reg_hist _ _ _ _ _ Hreg) as Hh.
    destruct (extract_entry_wf _ _ _ _ _ Hwf Hreg) as [Hwf1 Hb1].
    set (r1 := with_hist i (fst (extractAndReset h)) r) in *.
    assert (Hbody : getAllHistograms_body i acc r
                    = (Ret (<[name := snd (extractAndReset h)]> acc), r1)).
    { unfold getAllHistograms_body.
      rewrite (bind_run _ _ _ _ _ (index_run _ _ _ _ Hname)).
      by rewrite (bind_run _ _ _ _ _ (call_extractAndReset_run _ _ _ Hh)). }
    simpl for_loop. rewrite (bind_run _ _ _ _ _ Hbody).
    destruct (IH (i + 1) (<[name := snd (extractAndReset h)]> acc) r1 Hwf1)
      as (Hrun & Hwf' & Hb'); [lia|subst r1; cbn; lia|].
    replace (i + 1 + Z.of_nat n) with (i + Z.of_nat (S n)) in * by lia.
    assert (Hst : extract_hists (i + 1) (i + Z.of_nat (S n)) r1
                  = extract_hists i (i + Z.of_nat (S n)) r).
    { apply extract_hists_step; [lia|done]. }
    rewrite Hst in *. split; [|split; [done|]].
    + rewrite Hrun. f_equal. f_equal.
      rewrite (seqZ_cons i (Z.of_nat (S n))) by lia.
      replace (Z.pred (Z.of_nat (S n))) with (Z.of_nat n) by lia.
      replace (Z.succ i) with (i + 1) by lia.
      unfold fold_entries at 2. simpl foldl.
      assert (snapshot_entry r i = Some (name, snd (extractAndReset h))) as ->
        by (unfold snapshot_entry; by rewrite Hname, Hh).
      apply fold_entries_ext. intros j [Hj _]%elem_of_seqZ.
      unfold snapshot_entry. subst r1. cbn [hnames hists with_hist set_hists].
      by rewrite slice_get_insert_ne by lia.
    + intros C HC HB. apply Hb'; [done|]. by apply Hb1.
Qed.

Lemma getAllHistograms_run r :
  wf r ->
  getAllHistograms r
  = (Ret (fold_entries (snapshot_entry r) ∅ (seqZ 0 (curHistID r))),
     extract_hists 0 (curHistID r) r)
  /\ wf (extract_hists 0 (curHistID r) r)
  /\ (forall C, 0 <= C -> bounded C r ->
      bounded C (extract_hists 0 (curHistID r) r)).
Proof.
  intros Hwf. pose proof (wf_cur _ Hwf) as Hc.
  destruct (getAllHistograms_loop (Z.to_nat (curHistID r)) 0 ∅ r Hwf)
    as (Hrun & Hwf' & Hb'); [lia..|].
  rewrite Z.add_0_l, Z2Nat.id in * by lia.
  split; [|done]. unfold getAllHistograms.
  unfold bind at 1. unfold gets at 1. exact Hrun.
Qed.

Lemma getAllBucketHistograms_loop n r : forall i acc,
  wf r -> 0 <= i -> i + Z.of_nat n <= curHistID r ->
  for_loop n i getAllBucketHistograms_body acc r
  = (Ret (fold_entries (bucket_entry r) acc (seqZ i (Z.of_nat n))), r).
Proof.
  induction n as [|n IH]; intros i acc Hwf Hi Hn; [done|].
  destruct (wf_reg _ Hwf i) as (s & h & b & Hreg); [lia|].
  destruct (name_in_range r i Hwf) as [name Hname]; [lia|].
  pose proof (reg_bhist _ _ _ _ _ Hreg) as Hb.
  assert (Hbody : getAllBucketHistograms_body i acc r
                  = (Ret (<[name := buckets b]> acc), r)).
  { unfold getAllBucketHistograms_body.
    rewrite (bind_run _ _ _ _ _ (index_run _ _ _ _ Hname)).
    rewrite (bind_run _ _ _ _ _ (deref_run _ _ _ _ Hb)).
    rewrite extractBHist_copy; [done|apply Hreg]. }
  simpl for_loop. rewrite (bind_run _ _ _ _ _ Hbody).
  rewrite IH by (done || lia). f_equal. f_equal.
  rewrite (seqZ_cons i (Z.of_nat (S n))) by lia.
  replace (Z.pred (Z.of_nat (S n))) with (Z.of_nat n) by lia.
  replace (Z.succ i) with (i + 1) by lia.
  unfold fold_entries at 2. simpl foldl.
  by assert (bucket_entry r i = Some (name, buckets b)) as ->
    by (unfold bucket_entry; by rewrite Hname, Hb).
Qed.

Lemma getAllBucketHistograms_run r :
  wf r ->
  getAllBucketHistograms r
  = (Ret (fold_entries (bucket_entry r) ∅ (seqZ 0 (curHistID r))), r).
Proof.
  intros Hwf. pose proof (wf_cur _ Hwf) as Hc.
  pose proof (getAllBucketHistograms_loop (Z.to_nat (curHistID r)) r 0 ∅ Hwf) as Hrun.
  rewrite Z.add_0_l, Z2Nat.id in Hrun by lia.
  unfold getAllBucketHistograms. unfold bind at 1. unfold gets at 1.
  apply Hrun; lia.
Qed.

(** ** What one call does to a well-formed registry *)

Lemma unregistered_deref r id :
  wf r -> ~ (0 <= id < curHistID r) ->
  exists e, deref hists id r = (Panic e, r)
            /\ (e = IndexOutOfRange \/ e = NilDereference).
Proof.
  intros Hwf Hid. unfold deref, index, bind, gets.
  destruct (slice_get (hists r) id) as [[h|]|] eqn:E; cbn; eauto.
  pose proof (slice_get_bounds _ _ _ E).
  destruct (wf_unreg_hists _ Hwf id h); [lia|done].
Qed.

Lemma step_spec r o :
  wf r -> step_result r o (fst (step o r)) (snd (step o r)).
Proof.
  intros Hwf. pose proof (wf_cur _ Hwf) as Hc.
  destruct o as [name sampled|id value|id| |]; cbn [step].
  - destruct (Z.eq_dec (curHistID r) maxNumHists) as [E|E].
    + rewrite (bind_panic _ _ _ _ _ (AddHistogram_full name sampled r E)).
      by apply StepAddFull.
    + assert (Hlt : curHistID r < maxNumHists) by lia.
      pose proof (StepAdd r name sampled Hlt) as H.
      rewrite (bind_run _ _ _ _ _ (AddHistogram_run name sampled r Hwf Hlt)).
      by rewrite (AddHistogram_run name sampled r Hwf Hlt) in H.
  - destruct (decide (0 <= id < curHistID r)) as [Hid|Hid].
    + destruct (wf_reg _ Hwf id Hid) as (s & h & b & Hreg).
      rewrite (ObserveHist_run _ _ _ _ _ value Hreg). by eapply StepObserve.
    + destruct (unregistered_deref r id Hwf Hid) as (e & He & Hk).
      unfold ObserveHist. rewrite (bind_panic _ _ _ _ _ He). by apply StepObserveBad.
  - destruct (decide (0 <= id < curHistID r)) as [Hid|Hid].
    + destruct (wf_reg _ Hwf id Hid) as (s & h & b & Hreg).
      rewrite (bind_run _ _ _ _ _
                 (call_extractAndReset_run _ _ _ (reg_hist _ _ _ _ _ Hreg))).
      cbn [ret fst snd].
      change (Hist (reset (sec h)) (prim h)) with (fst (extractAndReset h)).
      by eapply StepExtract.
    + destruct (unregistered_deref r id Hwf Hid) as (e & He & Hk).
      assert (Hcall : call_extractAndReset id r = (Panic e, r))
        by (unfold call_extractAndReset; by rewrite (bind_panic _ _ _ _ _ He)).
      rewrite (bind_panic _ _ _ _ _ Hcall). by apply StepExtractBad.
  - destruct (getAllHistograms_run r Hwf) as (Hrun & _).
    rewrite (bind_run _ _ _ _ _ Hrun). apply StepGetAll.
  - rewrite (bind_run _ _ _ _ _ (getAllBucketHistograms_run r Hwf)).
    apply StepGetAllBuckets.
Qed.

(** ** Invariants along a sequence of calls *)

Lemma bounded_same_tables C r r' :
  hists r' = hists r -> bhists r' = bhists r -> bounded C r -> bounded C r'.
Proof. intros E1 E2 [Bh Bb]. split; rewrite ?E1, ?E2; done. Qed.

Lemma step_result_wf r o r' :
  wf r -> step_result r o (Ret tt) r' -> wf r'.
Proof.
  intros Hwf Hstep. inversion Hstep; subst.
  - by apply AddHistogram_wf.
  - eapply wf_with_entry; [done..| | |]; cbn [prim sec];
      [apply observe_hdat_buf_length|done|apply observe_bhist_length].
  - by eapply extract_entry_wf.
  - by apply getAllHistograms_run.
  - done.
Qed.

Lemma step_result_cur r o r' :
  wf r -> step_result r o (Ret tt) r' ->
  curHistID r' = curHistID r + count_adds [o].
Proof.
  intros Hwf Hstep. inversion Hstep; subst; cbn [count_adds].
  - rewrite AddHistogram_run by done. cbn. lia.
  - cbn. lia.
  - cbn. lia.
  - cbn. lia.
  - lia.
Qed.

Lemma step_result_panic r o e r' :
  step_result r o (Panic e) r' -> hists r' = hists r /\ bhists r' = bhists r.
Proof. intros Hstep. by inversion Hstep; subst. Qed.

Lemma step_result_bounded C r o out r' :
  wf r -> bounded C r -> 0 <= C < MaxUint64 -> well_typed o ->
  step_result r o out r' -> bounded (C + 1) r'.
Proof.
  intros Hwf HB HC Hty Hstep.
  assert (HB1 : bounded (C + 1) r) by (eapply bounded_mono; [|done]; lia).
  inversion Hstep; subst.
  - apply AddHistogram_bounded; [done..|lia|done].
  - by apply (bounded_same_tables _ r).
  - match goal with H : registered _ _ _ _ _ |- _ => rename H into Hreg end.
    pose proof (bounded_hists _ _ HB _ _ (reg_hist _ _ _ _ _ Hreg)) as [Hp Hs].
    apply bounded_with_entry; cbn [prim sec].
    + done.
    + eapply slice_get_bounds. apply Hreg.
    + pose proof (wf_hists _ Hwf). pose proof (wf_bhists _ Hwf). lia.
    + apply observe_hdat_ok; [done|lia|done].
    + eapply dat_ok_mono; [|done]. lia.
    + apply observe_bhist_ok; [apply Hreg| |lia].
      eapply (bounded_bhists _ _ HB). apply Hreg.
  - exact HB1.
  - eapply extract_entry_wf; [done..|lia|done].
  - exact HB1.
  - apply getAllHistograms_run; [done|lia|done].
  - exact HB1.
Qed.

Lemma run_cons o ops r :
  run (o :: ops) r
  = match fst (step o r) with
    | Ret _ => run ops (snd (step o r))
    | Panic e => (Panic e, snd (step o r))
    end.
Proof. cbn [run]. unfold bind. by destruct (step o r) as [[[]|e] r1]. Qed.

(** A run that did not panic leaves well-formed tables, with as many handles
    allocated as it has registrations. *)
Lemma run_wf ops : forall r,
  wf r -> fst (run ops r) = Ret tt ->
  wf (snd (run ops r))
  /\ curHistID (snd (run ops r)) = curHistID r + count_adds ops.
Proof.
  induction ops as [|o ops IH]; intros r Hwf Hrun.
  - cbn. split; [done|lia].
  - rewrite run_cons in *. pose proof (step_spec r o Hwf) as Hstep.
    destruct (fst (step o r)) as [[]|e]; [|done].
    pose proof (step_result_wf _ _ _ Hwf Hstep) as Hwf1.
    destruct (IH _ Hwf1 Hrun) as [Hwf' Hcur]. split; [done|].
    rewrite Hcur, (step_result_cur _ _ _ Hwf Hstep).
    destruct o; cbn [count_adds]; lia.
Qed.

(** However a run of well-typed calls ends, the counters of the tables are
    bounded by the number of calls made. *)
Lemma run_bounded ops : forall C r,
  wf r -> bounded C r -> 0 <= C ->
  C + Z.of_nat (length ops) <= MaxUint64 ->
  Forall well_typed ops ->
  bounded (C + Z.of_nat (length ops)) (snd (run ops r)).
Proof.
  induction ops as [|o ops IH]; intros C r Hwf HB HC Hlen Hty.
  - cbn. by rewrite Z.add_0_r.
  - apply Forall_cons in Hty as [Hty1 Hty]. cbn [length] in *.
    rewrite run_cons. pose proof (step_spec r o Hwf) as Hstep.
    assert (HB1 : bounded (C + 1) (snd (step o r)))
      by (eapply step_result_bounded; [done..|lia|done|done]).
    destruct (fst (step o r)) as [[]|e].
    + pose proof (step_result_wf _ _ _ Hwf Hstep) as Hwf1.
      replace (C + Z.of_nat (S (length ops)))
        with (C + 1 + Z.of_nat (length ops)) by lia.
      apply IH; [done..|lia|lia|done].
    + cbn [snd]. eapply bounded_mono; [|done]. lia.
Qed.

Lemma bounded_all_buffers_inv C r : bounded C r -> all_buffers_inv r.
Proof.
  intros [Bh _]. unfold all_buffers_inv. apply Forall_lookup_2.
  intros i [h|] Hi; [|done].
  destruct (Bh (Z.of_nat i) h) as [Hp Hs].
  { rewrite slice_get_lookup by lia. by rewrite Nat2Z.id. }
  split; by eapply dat_ok_buffer_inv.
Qed.

(** ** Bucket counters never go down *)

Lemma buckets_le_same r r' : bhists r' = bhists r -> buckets_le r r'.
Proof.
  intros E i b Hb. exists b. rewrite E. split; [done|]. split; [done|].
  intros j x Hx. exists x. split; [done|lia].
Qed.

Lemma step_result_buckets_le C r o out r' :
  wf r -> bounded C r -> 0 <= C < MaxUint64 ->
  step_result r o out r' -> buckets_le r r'.
Proof.
  intros Hwf HB HC Hstep. inversion Hstep; subst;
    try (by apply buckets_le_same).
  - rewrite AddHistogram_run by done. cbn [snd]. intros i b Hb. exists b.
    pose proof (slice_get_bounds _ _ _ Hb). pose proof (wf_cur _ Hwf).
    split; [|split; [done|intros j x Hx; exists x; split; [done|lia]]].
    cbn [bhists]. rewrite slice_get_insert_ne; [done|lia|].
    intros <-. by eapply (wf_unreg_bhists _ Hwf (curHistID r) b); [lia|].
  - match goal with H : registered _ _ _ _ _ |- _ => rename H into Hreg end.
    pose proof (reg_bhist _ _ _ _ _ Hreg) as Hb0.
    pose proof (slice_get_bounds _ _ _ Hb0).
    intros i bi Hbi. cbn [bhists with_bhist with_hist set_bhists set_hists].
    rewrite slice_get_insert by lia. case_decide as Hi.
    + subst i. rewrite Hb0 in Hbi. injection Hbi as <-.
      exists (observe_bhist value b).
      split; [done|]. split; [apply observe_bhist_length|].
      intros j x Hx. unfold observe_bhist. cbn [buckets].
      pose proof (lookup_lt_Some _ _ _ Hx) as Hlt.
      destruct (decide (Z.to_nat (lzcnt value) = j)) as [<-|Hne].
      * rewrite list_lookup_insert_eq by done. eexists. split; [done|].
        rewrite (list_lookup_total_correct _ _ _ Hx).
        pose proof (Forall_lookup_1 _ _ _ _ (bounded_bhists _ _ HB _ _ Hb0) Hx) as Hr.
        cbn in Hr. rewrite wrap64_small; lia.
      * rewrite list_lookup_insert_ne by done. exists x. split; [done|lia].
    + exists bi. split; [done|]. split; [done|].
      intros j x Hx. exists x. split; [done|lia].
Qed.

(** * The claims *)

(** C1, as amended: after the observations v1..vn (n > 0) on a freshly reset
    histogram, one [extractAndReset] returns a snapshot whose [count] is n and
    whose [total] is the sum v1 + ... + vn, both reduced modulo 2^64 (so equal
    to n and to the sum whenever these fit in 64 bits), whose [min] is the
    least and whose [max] is the greatest of the values. *)
Theorem C1_interval_aggregates r id sampled h b vs :
  registered r id sampled h b ->
  fresh (prim h) ->
  vs <> [] ->
  Forall (fun v => 0 <= v <= MaxUint64) vs ->
  exists snap,
    fst (observe_then_extract id vs r) = Ret snap
    /\ count snap = wrap64 (Z.of_nat (length vs))
    /\ total snap = wrap64 (sum_list vs)
    /\ (Z.of_nat (length vs) <= MaxUint64 -> count snap = Z.of_nat (length vs))
    /\ (sum_list vs <= MaxUint64 -> total snap = sum_list vs)
    /\ min snap ∈ vs /\ (forall v, v ∈ vs -> min snap <= v)
    /\ max snap ∈ vs /\ (forall v, v ∈ vs -> v <= max snap).
Proof.
  intros Hreg Hfresh Hne Hall.
  exists (observe_all_hdat sampled vs (prim h)).
  split; [by eapply observe_then_extract_run|].
  destruct (fresh_spec sampled vs _ Hfresh) as (Hc & _ & Ht & Hmax & Hmin & _).
  destruct (foldl_max_fresh vs Hne Hall) as [Hmax1 Hmax2].
  destruct (foldl_min_fresh vs Hne Hall) as [Hmin1 Hmin2].
  assert (Hsum : 0 <= sum_list vs).
  { clear -Hall. induction Hall as [|v vs Hv _ IH]; unfold sum_list in *; simpl; lia. }
  rewrite Hc, Ht, Hmax, Hmin. repeat split; try done.
  - intros Hn. apply wrap64_small. lia.
  - intros Hs. apply wrap64_small. lia.
Qed.

Lemma C1_interval_aggregates_witness :
  exists snap,
    fst (observe_then_extract 0 [3; 1; 2] (registry_with_one "latency" false))
    = Ret snap
    /\ count snap = wrap64 3 /\ total snap = wrap64 6
    /\ (3 <= MaxUint64 -> count snap = 3)
    /\ (6 <= MaxUint64 -> total snap = 6)
    /\ min snap ∈ [3; 1; 2] /\ (forall v, v ∈ [3; 1; 2] -> min snap <= v)
    /\ max snap ∈ [3; 1; 2] /\ (forall v, v ∈ [3; 1; 2] -> v <= max snap).
Proof.
  apply (C1_interval_aggregates (registry_with_one "latency" false) 0 false
           newHist newBHist [3; 1; 2]).
  - apply registry_with_one_registered.
  - apply fresh_newHdat.
  - discriminate.
  - repeat constructor; unfold MaxUint64; lia.
Defined.

(** C1 as stated fails: two observations of 2^63 on a fresh histogram leave
    [total == 0] in the snapshot, while their sum is 2^64. *)
Lemma C1_total_overflow_counterexample :
  let r := registry_with_one "latency" false in
  let vs := [2 ^ 63; 2 ^ 63] in
  registered r 0 false newHist newBHist
  /\ fresh (prim newHist)
  /\ Forall (fun v => 0 <= v <= MaxUint64) vs
  /\ outcome_map total (fst (observe_then_extract 0 vs r)) = Ret 0
  /\ outcome_map count (fst (observe_then_extract 0 vs r)) = Ret 2
  /\ sum_list vs = 2 ^ 64
  /\ outcome_map total (fst (observe_then_extract 0 vs r)) <> Ret (sum_list vs).
Proof.
  cbv zeta. split; [apply registry_with_one_registered|].
  split; [apply fresh_newHdat|].
  split; [repeat constructor; unfold MaxUint64; lia|].
  assert (E : outcome_map total
                (fst (observe_then_extract 0 [2 ^ 63; 2 ^ 63]
                        (registry_with_one "latency" false))) = Ret 0)
    by (vm_compute; reflexivity).
  split; [exact E|]. split; [vm_compute; reflexivity|].
  split; [reflexivity|]. rewrite E. discriminate.
Qed.

(** C2, as amended: on a histogram registered with [sampled == true], after n
    observations (n below 2^64) on a freshly reset histogram the snapshot has
    [count == n] and [kept == floor(n / 4)]: the observations whose running
    count is a multiple of four are the retained ones. *)
Theorem C2_sampled_kept r id h b vs :
  registered r id true h b ->
  fresh (prim h) ->
  Z.of_nat (length vs) <= MaxUint64 ->
  exists snap,
    fst (observe_then_extract id vs r) = Ret snap
    /\ count snap = Z.of_nat (length vs)
    /\ kept snap = Z.of_nat (length vs) / 4.
Proof.
  intros Hreg Hfresh Hn.
  exists (observe_all_hdat true vs (prim h)).
  split; [by eapply observe_then_extract_run|].
  destruct (fresh_spec true vs _ Hfresh) as (Hc & Hk & _).
  rewrite Hc, Hk, retained_sampled_length by lia.
  change (0 / 4) with 0. rewrite Z.add_0_l, Z.sub_0_r.
  split; apply wrap64_small; [lia|].
  assert (0 <= Z.of_nat (length vs) / 4 <= Z.of_nat (length vs)); [|lia].
  Z.div_mod_to_equations. lia.
Qed.

Lemma C2_sampled_kept_witness :
  exists snap,
    fst (observe_then_extract 0 (replicate 10 10) (registry_with_one "size" true))
    = Ret snap
    /\ count snap = Z.of_nat (length (replicate 10 10))
    /\ kept snap = Z.of_nat (length (replicate 10 10)) / 4.
Proof.
  apply (C2_sampled_kept (registry_with_one "size" true) 0 newHist newBHist
           (replicate 10 10)).
  - apply registry_with_one_registered.
  - apply fresh_newHdat.
  - vm_compute. discriminate.
Defined.

(** C2 as stated fails: ten observations on a sampled histogram leave
    [kept == 2] (the 4th and the 8th), not [ceil(10 / 4) == 3]. *)
Lemma C2_ten_observations_counterexample :
  let r := registry_with_one "size" true in
  let vs := replicate 10 10 in
  registered r 0 true newHist newBHist
  /\ fresh (prim newHist)
  /\ outcome_map count (fst (observe_then_extract 0 vs r)) = Ret 10
  /\ outcome_map kept (fst (observe_then_extract 0 vs r)) = Ret 2
  /\ (10 + 3) / 4 = 3
  /\ outcome_map kept (fst (observe_then_extract 0 vs r)) <> Ret 3.
Proof.
  cbv zeta. split; [apply registry_with_one_registered|].
  split; [apply fresh_newHdat|].
  assert (E : outcome_map kept
                (fst (observe_then_extract 0 (replicate 10 10)
                        (registry_with_one "size" true))) = Ret 2)
    by (vm_compute; reflexivity).
  split; [vm_compute; reflexivity|]. split; [exact E|].
  split; [reflexivity|]. rewrite E. discriminate.
Qed.

(** C4: for every unsigned 64-bit value [v], one [ObserveHist] adds one to
    exactly one bucket counter of its handle (in 64-bit arithmetic), the one
    whose index is the number of leading zero bits of [v], and leaves the
    other counters of that handle and of every other handle as they were;
    [v == 0] goes to index 64 and [v == 2^63] to index 0; [extractBHist]
    returns the 65 counters, and being a read of its argument changes none. *)
Theorem C4_bucket_increment r id sampled h b v :
  registered r id sampled h b ->
  0 <= v <= MaxUint64 ->
  exists r' b',
    ObserveHist id v r = (Ret tt, r')
    /\ slice_get (bhists r') id = Some (Some b')
    /\ length (buckets b') = length (buckets b)
    (* the index is the number of leading zero bits *)
    /\ 0 <= lzcnt v <= 64
    /\ (forall i, 64 - lzcnt v <= i < 64 -> Z.testbit v i = false)
    /\ (lzcnt v < 64 -> Z.testbit v (63 - lzcnt v) = true)
    /\ lzcnt 0 = 64 /\ lzcnt (2 ^ 63) = 0
    (* that counter, and only that one, moves by one *)
    /\ slice_get (buckets b') (lzcnt v)
       = Some (wrap64 (buckets b !!! Z.to_nat (lzcnt v) + 1))
    /\ (0 <= buckets b !!! Z.to_nat (lzcnt v) < MaxUint64 ->
        slice_get (buckets b') (lzcnt v)
        = Some (buckets b !!! Z.to_nat (lzcnt v) + 1))
    /\ (forall j, j <> lzcnt v ->
        slice_get (buckets b') j = slice_get (buckets b) j)
    /\ (forall i, i <> id -> slice_get (bhists r') i = slice_get (bhists r) i)
    (* reading *)
    /\ extractBHist b' = Ret (buckets b').
Proof.
  intros Hreg Hv. pose proof Hreg as [Hh Hb Hs Hbl Hpl Hsl].
  pose proof (lzcnt_range v) as Hlz.
  pose proof (slice_get_bounds _ _ _ Hb) as Hid.
  eexists _, (observe_bhist v b).
  split; [by apply ObserveHist_run|].
  assert (Hin : 0 <= lzcnt v < Z.of_nat (length (buckets b)))
    by (unfold bhistlen in Hbl; lia).
  assert (Hnew : slice_get (buckets (observe_bhist v b)) (lzcnt v)
                 = Some (wrap64 (buckets b !!! Z.to_nat (lzcnt v) + 1))).
  { unfold observe_bhist. simpl. rewrite slice_get_insert by done.
    by rewrite decide_True. }
  split; [simpl; by eapply slice_get_insert_eq|].
  split; [apply observe_bhist_length|].
  split; [done|].
  destruct (lzcnt_below_bits 64 v) as [Hz Ho].
  split; [exact Hz|].
  split.
  { intros Hlt. unfold lzcnt in *.
    replace (63 - lzcnt_below 64 v) with (Z.of_nat 64 - lzcnt_below 64 v - 1) by lia.
    apply Ho. lia. }
  split; [reflexivity|]. split; [reflexivity|].
  split; [exact Hnew|].
  split; [intros Hold; rewrite Hnew, wrap64_small; [done|lia]|].
  split.
  { intros j Hj. unfold observe_bhist. simpl.
    apply slice_get_insert_ne; [lia|done]. }
  split.
  { intros i Hi. simpl. apply slice_get_insert_ne; [lia|done]. }
  apply extractBHist_copy. by rewrite observe_bhist_length.
Qed.

Lemma C4_bucket_increment_witness :
  exists r' b',
    ObserveHist 0 255 (registry_with_one "latency" false) = (Ret tt, r')
    /\ slice_get (bhists r') 0 = Some (Some b')
    /\ length (buckets b') = length (buckets newBHist)
    /\ 0 <= lzcnt 255 <= 64
    /\ (forall i, 64 - lzcnt 255 <= i < 64 -> Z.testbit 255 i = false)
    /\ (lzcnt 255 < 64 -> Z.testbit 255 (63 - lzcnt 255) = true)
    /\ lzcnt 0 = 64 /\ lzcnt (2 ^ 63) = 0
    /\ slice_get (buckets b') (lzcnt 255)
       = Some (wrap64 (buckets newBHist !!! Z.to_nat (lzcnt 255) + 1))
    /\ (0 <= buckets newBHist !!! Z.to_nat (lzcnt 255) < MaxUint64 ->
        slice_get (buckets b') (lzcnt 255)
        = Some (buckets newBHist !!! Z.to_nat (lzcnt 255) + 1))
    /\ (forall j, j <> lzcnt 255 ->
        slice_get (buckets b') j = slice_get (buckets newBHist) j)
    /\ (forall i, i <> 0 ->
        slice_get (bhists r') i
        = slice_get (bhists (registry_with_one "latency" false)) i)
    /\ extractBHist b' = Ret (buckets b').
Proof.
  apply (C4_bucket_increment (registry_with_one "latency" false) 0 false
           newHist newBHist 255).
  - apply registry_with_one_registered.
  - unfold MaxUint64. lia.
Defined.

(** C5: a sample buffer has exactly 32768 slots; a retained observation is
    written at the slot given by [kept] (after its increment) modulo 32768,
    which is in bounds; in an interval on a fresh histogram the buffer keeps
    its 32768 slots whatever the number of retained observations, each of the
    last 32768 retained values is in the slot of its number modulo 32768 (the
    newer ones having replaced the older), and once 32768 or more were
    retained every slot holds a value observed in that interval. *)
Theorem C5_sample_buffer r id sampled h b vs :
  registered r id sampled h b ->
  fresh (prim h) ->
  exists snap,
    fst (observe_then_extract id vs r) = Ret snap
    /\ Z.of_nat (length (buf newHdat)) = 32768
    /\ Z.of_nat (length (buf snap)) = 32768
    (* the write of one retained observation *)
    /\ (forall v d, Z.of_nat (length (buf d)) = 32768 ->
        buf (observe_hdat sampled v d) = buf d
        \/ (buf (observe_hdat sampled v d)
            = <[Z.to_nat (kept (observe_hdat sampled v d) mod 32768) := v]> (buf d)
            /\ 0 <= kept (observe_hdat sampled v d) mod 32768
               < Z.of_nat (length (buf d))))
    (* the interval *)
    /\ (let rs := retained sampled 0 vs in
        let n := Z.of_nat (length rs) in
        (forall i, 1 <= i <= n -> n - 32768 < i ->
           buf snap !! Z.to_nat (i mod 32768) = rs !! Z.to_nat (i - 1))
        /\ (32768 <= n -> forall x, x ∈ buf snap -> x ∈ rs /\ x ∈ vs)).
Proof.
  intros Hreg Hfresh.
  destruct (snapshot_buf _ _ _ _ _ vs Hreg Hfresh) as (snap & Hrun & Hbuf & Hlen).
  exists snap. split; [done|]. split; [reflexivity|]. split; [done|].
  split.
  { intros v d Hd.
    pose proof (observe_hdat_fields sampled v d) as (_ & Fk & _ & _ & _ & Fb).
    destruct (negb _).
    - right. rewrite Fk, Fb, land_buflen.
      split; [done|]. rewrite Hd. apply Z.mod_pos_bound. lia.
    - by left. }
  cbv zeta. rewrite Hbuf. split.
  - intros i Hi Hrecent.
    pose proof (write_all_recent (retained sampled 0 vs) 0 (buf (prim h)) i) as Hw.
    rewrite Z.add_0_l in Hw. apply Hw; [apply Hreg|done..].
  - intros Hn x Hx.
    assert (x ∈ retained sampled 0 vs).
    { eapply write_all_full; [apply Hreg|done..]. }
    split; [done|]. by eapply retained_elem.
Qed.

Lemma C5_sample_buffer_witness :
  let vs := replicate (Z.to_nat 32769) 7 in
  exists snap,
    fst (observe_then_extract 0 vs (registry_with_one "latency" false)) = Ret snap
    /\ Z.of_nat (length (buf newHdat)) = 32768
    /\ Z.of_nat (length (buf snap)) = 32768
    /\ (forall v d, Z.of_nat (length (buf d)) = 32768 ->
        buf (observe_hdat false v d) = buf d
        \/ (buf (observe_hdat false v d)
            = <[Z.to_nat (kept (observe_hdat false v d) mod 32768) := v]> (buf d)
            /\ 0 <= kept (observe_hdat false v d) mod 32768
               < Z.of_nat (length (buf d))))
    /\ (let rs := retained false 0 vs in
        let n := Z.of_nat (length rs) in
        (forall i, 1 <= i <= n -> n - 32768 < i ->
           buf snap !! Z.to_nat (i mod 32768) = rs !! Z.to_nat (i - 1))
        /\ (32768 <= n -> forall x, x ∈ buf snap -> x ∈ rs /\ x ∈ vs)).
Proof.
  apply (C5_sample_buffer (registry_with_one "latency" false) 0 false
           newHist newBHist).
  - apply registry_with_one_registered.
  - apply fresh_newHdat.
Defined.

(** C6: two [extractAndReset] in a row, nothing observed in between: the
    second snapshot has [count == 0], [min] at [math.MaxUint64], [max == 0]
    and [total == 0], whatever the histogram held before. *)
Theorem C6_extract_twice (h : hist) :
  let (h1, first) := extractAndReset h in
  let (h2, second) := extractAndReset h1 in
  count second = 0 /\ min second = MaxUint64 /\ max second = 0
  /\ total second = 0 /\ kept second = 0
  /\ first = prim h.
Proof. destruct h as [p s]. simpl. done. Qed.

(** C10: the slot of a retained observation is computed from [kept] after its
    increment.  In an interval on a fresh histogram the i-th retained
    observation is stored at slot [i mod 32768]: the first one in slot 1; slot
    0 is written by the 32768th and by none before it, so after an interval
    that retained fewer than 32768 observations slot 0 of the snapshot still
    holds what the buffer held before the interval began. *)
Theorem C10_post_increment_slot r id sampled h b vs :
  registered r id sampled h b ->
  fresh (prim h) ->
  exists snap,
    fst (observe_then_extract id vs r) = Ret snap
    /\ (forall v d,
          let d' := observe_hdat sampled v d in
          kept d' = kept d /\ buf d' = buf d
          \/ kept d' = wrap64 (kept d + 1)
             /\ buf d' = <[Z.to_nat (Z.land (kept d') 0x7FFF) := v]> (buf d))
    /\ (let rs := retained sampled 0 vs in
        let k := Z.of_nat (length rs) in
        (forall i, 1 <= i <= k -> k - 32768 < i ->
           buf snap !! Z.to_nat (i mod 32768) = rs !! Z.to_nat (i - 1))
        /\ (1 <= k <= 32768 -> buf snap !! 1%nat = rs !! 0%nat)
        /\ (k < 32768 -> buf snap !! 0%nat = buf (prim h) !! 0%nat)
        /\ (k = 32768 -> buf snap !! 0%nat = rs !! Z.to_nat 32767)).
Proof.
  intros Hreg Hfresh.
  destruct (snapshot_buf _ _ _ _ _ vs Hreg Hfresh) as (snap & Hrun & Hbuf & Hlen).
  exists snap. split; [done|]. split.
  { intros v d. cbv zeta.
    pose proof (observe_hdat_fields sampled v d) as (_ & Fk & _ & _ & _ & Fb).
    destruct (negb _).
    - right. by rewrite Fk, Fb.
    - by left. }
  cbv zeta. rewrite Hbuf.
  pose proof (write_all_recent (retained sampled 0 vs) 0 (buf (prim h))) as Hw.
  assert (Hl : Z.of_nat (length (buf (prim h))) = 32768) by apply Hreg.
  split; [|split; [|split]].
  - intros i Hi Hrecent. specialize (Hw i). rewrite Z.add_0_l in Hw. by apply Hw.
  - intros Hk. apply (Hw 1); [done|lia|lia].
  - intros Hk. apply write_all_untouched. intros i Hi.
    rewrite Z.add_0_l, Z.mod_small by lia. lia.
  - intros Hk. apply (Hw 32768); [done|lia|lia].
Qed.

Lemma C10_post_increment_slot_witness :
  let vs := [11; 12; 13] in
  exists snap,
    fst (observe_then_extract 0 vs (registry_with_one "latency" false)) = Ret snap
    /\ (forall v d,
          let d' := observe_hdat false v d in
          kept d' = kept d /\ buf d' = buf d
          \/ kept d' = wrap64 (kept d + 1)
             /\ buf d' = <[Z.to_nat (Z.land (kept d') 0x7FFF) := v]> (buf d))
    /\ (let rs := retained false 0 vs in
        let k := Z.of_nat (length rs) in
        (forall i, 1 <= i <= k -> k - 32768 < i ->
           buf snap !! Z.to_nat (i mod 32768) = rs !! Z.to_nat (i - 1))
        /\ (1 <= k <= 32768 -> buf snap !! 1%nat = rs !! 0%nat)
        /\ (k < 32768 -> buf snap !! 0%nat = buf (prim newHist) !! 0%nat)
        /\ (k = 32768 -> buf snap !! 0%nat = rs !! Z.to_nat 32767)).
Proof.
  apply (C10_post_increment_slot (registry_with_one "latency" false) 0 false
           newHist newBHist).
  - apply registry_with_one_registered.
  - apply fresh_newHdat.
Defined.

(** C3: [AddHistogram] returns handle k for the (k+1)-th registration: after
    a run of calls with k registrations the counter stands at k, and the next
    registration returns k and fills the four table entries of handle k as
    long as k is below 1024; the registration after the 1024th panics with
    "Too many histograms", which no failing [ObserveHist] ever does (its
    panics are the runtime's index and nil-pointer errors). *)
Theorem C3_registration ops name sampled :
  fst (run ops init_registry) = Ret tt ->
  let r := snd (run ops init_registry) in
  let k := count_adds ops in
  curHistID r = k /\ 0 <= k <= maxNumHists
  /\ (k < maxNumHists ->
      fst (AddHistogram name sampled r) = Ret k
      /\ registered (snd (AddHistogram name sampled r)) k sampled newHist newBHist
      /\ slice_get (hnames (snd (AddHistogram name sampled r))) k = Some name)
  /\ (k = maxNumHists ->
      fst (AddHistogram name sampled r)
      = Panic (PanicString "Too many histograms"))
  /\ (forall id value e,
        fst (ObserveHist id value r) = Panic e ->
        e = IndexOutOfRange \/ e = NilDereference).
Proof.
  intros Hrun. cbv zeta.
  destruct (run_wf ops init_registry wf_init Hrun) as [Hwf Hcur].
  cbn [curHistID init_registry] in Hcur. rewrite Z.add_0_l in Hcur.
  set (r := snd (run ops init_registry)) in *.
  pose proof (wf_cur _ Hwf) as Hc. rewrite <- Hcur.
  split; [done|]. split; [done|]. split; [|split].
  - intros Hlt. split; [by rewrite AddHistogram_run|].
    by apply AddHistogram_wf.
  - intros E. by rewrite AddHistogram_full.
  - intros id value e He.
    pose proof (step_spec r (OpObserveHist id value) Hwf) as Hstep.
    cbn [step] in Hstep. rewrite He in Hstep. by inversion Hstep.
Qed.

Lemma C3_registration_witness :
  let ops := [OpAddHistogram "latency" false; OpObserveHist 0 5;
              OpAddHistogram "size" true] in
  let r := snd (run ops init_registry) in
  let k := count_adds ops in
  curHistID r = k /\ 0 <= k <= maxNumHists
  /\ (k < maxNumHists ->
      fst (AddHistogram "hits" false r) = Ret k
      /\ registered (snd (AddHistogram "hits" false r)) k false newHist newBHist
      /\ slice_get (hnames (snd (AddHistogram "hits" false r))) k = Some "hits")
  /\ (k = maxNumHists ->
      fst (AddHistogram "hits" false r)
      = Panic (PanicString "Too many histograms"))
  /\ (forall id value e,
        fst (ObserveHist id value r) = Panic e ->
        e = IndexOutOfRange \/ e = NilDereference).
Proof.
  apply (C3_registration
           [OpAddHistogram "latency" false; OpObserveHist 0 5;
            OpAddHistogram "size" true] "hits" false).
  vm_compute. reflexivity.
Defined.

(** C7: every sequence of calls from the initial state (registrations,
    observations of [uint64] values, [extractAndReset], the two exports),
    however it ends, leaves both buffers of every histogram with
    [kept <= count], with [min <= max] when [count > 0], and with [min] at
    [math.MaxUint64] and [max] at 0 when [count == 0].  The sequence has
    fewer than 2^64 calls, so that no counter wraps. *)
Theorem C7_buffer_invariant ops :
  Forall well_typed ops ->
  Z.of_nat (length ops) <= MaxUint64 ->
  all_buffers_inv (snd (run ops init_registry))
  /\ (forall id h,
        slice_get (hists (snd (run ops init_registry))) id = Some (Some h) ->
        buffer_inv (prim h) /\ buffer_inv (sec h)).
Proof.
  intros Hty Hlen.
  pose proof (run_bounded ops 0 init_registry wf_init bounded_init) as HB.
  rewrite Z.add_0_l in HB. specialize (HB ltac:(lia) Hlen Hty).
  split; [by eapply bounded_all_buffers_inv|].
  intros id h Hh. destruct (bounded_hists _ _ HB _ _ Hh) as [Hp Hs].
  split; by eapply dat_ok_buffer_inv.
Qed.

Lemma C7_buffer_invariant_witness :
  let ops := [OpAddHistogram "size" true; OpObserveHist 0 3;
              OpObserveHist 0 9; OpExtractAndReset 0;
              OpObserveHist 0 1; OpGetAllHistograms] in
  all_buffers_inv (snd (run ops init_registry))
  /\ (forall id h,
        slice_get (hists (snd (run ops init_registry))) id = Some (Some h) ->
        buffer_inv (prim h) /\ buffer_inv (sec h)).
Proof.
  apply (C7_buffer_invariant
           [OpAddHistogram "size" true; OpObserveHist 0 3; OpObserveHist 0 9;
            OpExtractAndReset 0; OpObserveHist 0 1; OpGetAllHistograms]).
  - repeat constructor; cbn; unfold MaxUint64; lia.
  - cbn. unfold MaxUint64. lia.
Defined.

(** C8: from any state a run of fewer than 2^64 calls reaches, no call
    lowers a bucket counter or removes or resizes a bucket histogram; and
    [getAllBucketHistograms] leaves the whole state as it was and returns a
    map in which every registered name is present and every value is the 65
    counters of a handle registered under that name. *)
Theorem C8_bucket_counters_monotone ops o :
  Forall well_typed ops ->
  Z.of_nat (length ops) < MaxUint64 ->
  fst (run ops init_registry) = Ret tt ->
  let r := snd (run ops init_registry) in
  buckets_le r (snd (step o r))
  /\ snd (getAllBucketHistograms r) = r
  /\ exists m,
       fst (getAllBucketHistograms r) = Ret m
       /\ m = fold_entries (bucket_entry r) ∅ (seqZ 0 (curHistID r))
       /\ (forall name bs, m !! name = Some bs ->
            Z.of_nat (length bs) = bhistlen
            /\ exists i b,
                 0 <= i < curHistID r
                 /\ slice_get (hnames r) i = Some name
                 /\ slice_get (bhists r) i = Some (Some b)
                 /\ bs = buckets b)
       /\ (forall i, 0 <= i < curHistID r ->
            exists name, slice_get (hnames r) i = Some name
                         /\ is_Some (m !! name)).
Proof.
  intros Hty Hlen Hrun. cbv zeta.
  destruct (run_wf ops init_registry wf_init Hrun) as [Hwf _].
  pose proof (run_bounded ops 0 init_registry wf_init bounded_init) as HB.
  rewrite Z.add_0_l in HB. specialize (HB ltac:(lia) ltac:(lia) Hty).
  set (r := snd (run ops init_registry)) in *.
  split.
  { eapply step_result_buckets_le; [done|done| |by apply step_spec]. lia. }
  rewrite (getAllBucketHistograms_run r Hwf). split; [done|].
  eexists. split; [done|]. split; [done|]. split.
  - intros name bs Hm.
    apply fold_entries_lookup in Hm as [Hm|(j & [Hj0 Hj1]%elem_of_seqZ & E)];
      [by rewrite lookup_empty in Hm|].
    unfold bucket_entry in E.
    destruct (slice_get (hnames r) j) as [nm|] eqn:En; [|done].
    destruct (slice_get (bhists r) j) as [[b|]|] eqn:Eb; try done.
    injection E as -> <-.
    destruct (wf_reg _ Hwf j) as (s & h & b' & Hreg); [lia|].
    pose proof (reg_bhist _ _ _ _ _ Hreg) as Eb'. rewrite Eb in Eb'.
    injection Eb' as ->. split; [apply Hreg|].
    exists j, b'. repeat split; (done || lia).
  - intros i Hi.
    destruct (wf_reg _ Hwf i Hi) as (s & h & b & Hreg).
    destruct (name_in_range r i Hwf Hi) as [name Hname].
    exists name. split; [done|]. apply fold_entries_is_Some. right.
    exists i, (buckets b). split; [apply elem_of_seqZ; lia|].
    unfold bucket_entry. by rewrite Hname, (reg_bhist _ _ _ _ _ Hreg).
Qed.

Lemma C8_bucket_counters_monotone_witness :
  let ops := [OpAddHistogram "latency" false; OpObserveHist 0 255;
              OpAddHistogram "size" true; OpObserveHist 1 0] in
  let o := OpObserveHist 0 1 in
  let r := snd (run ops init_registry) in
  buckets_le r (snd (step o r))
  /\ snd (getAllBucketHistograms r) = r
  /\ exists m,
       fst (getAllBucketHistograms r) = Ret m
       /\ m = fold_entries (bucket_entry r) ∅ (seqZ 0 (curHistID r))
       /\ (forall name bs, m !! name = Some bs ->
            Z.of_nat (length bs) = bhistlen
            /\ exists i b,
                 0 <= i < curHistID r
                 /\ slice_get (hnames r) i = Some name
                 /\ slice_get (bhists r) i = Some (Some b)
                 /\ bs = buckets b)
       /\ (forall i, 0 <= i < curHistID r ->
            exists name, slice_get (hnames r) i = Some name
                         /\ is_Some (m !! name)).
Proof.
  apply (C8_bucket_counters_monotone
           [OpAddHistogram "latency" false; OpObserveHist 0 255;
            OpAddHistogram "size" true; OpObserveHist 1 0]
           (OpObserveHist 0 1)).
  - repeat constructor; cbn; unfold MaxUint64; lia.
  - cbn. unfold MaxUint64. lia.
  - vm_compute. reflexivity.
Defined.

(** C9: [getAllHistograms] visits the registered handles 0, 1, ... in
    registration order, runs [extractAndReset] on each one exactly once, and
    stores the snapshot under the handle's name, a later handle replacing an
    earlier one of the same name: the map holds, for every registered name,
    the snapshot of the last handle registered under it, and nothing else. *)
Theorem C9_export_last_registration_wins ops :
  fst (run ops init_registry) = Ret tt ->
  let r := snd (run ops init_registry) in
  let n := curHistID r in
  exists m,
    getAllHistograms r = (Ret m, extract_hists 0 n r)
    /\ m = fold_entries (snapshot_entry r) ∅ (seqZ 0 n)
    /\ (forall i, 0 <= i < n ->
        exists name h,
          slice_get (hnames r) i = Some name
          /\ slice_get (hists r) i = Some (Some h)
          /\ slice_get (hists (extract_hists 0 n r)) i
             = Some (Some (fst (extractAndReset h)))
          /\ ((forall j, i < j < n -> slice_get (hnames r) j <> Some name) ->
              m !! name = Some (snd (extractAndReset h))))
    /\ (forall name snap, m !! name = Some snap ->
        exists i h,
          0 <= i < n
          /\ slice_get (hnames r) i = Some name
          /\ slice_get (hists r) i = Some (Some h)
          /\ snap = snd (extractAndReset h)).
Proof.
  intros Hrun. cbv zeta.
  destruct (run_wf ops init_registry wf_init Hrun) as [Hwf _].
  set (r := snd (run ops init_registry)) in *.
  destruct (getAllHistograms_run r Hwf) as (Hget & _).
  eexists. split; [exact Hget|]. split; [done|]. split.
  - intros i Hi.
    destruct (wf_reg _ Hwf i Hi) as (s & h & b & Hreg).
    destruct (name_in_range r i Hwf Hi) as [name Hname].
    pose proof (reg_hist _ _ _ _ _ Hreg) as Hh.
    exists name, h. split; [done|]. split; [done|]. split.
    + rewrite extract_hists_get, Hh.
      destruct (Z.leb_spec 0 i), (Z.ltb_spec i (curHistID r)); try lia. done.
    + intros Hlast.
      replace (curHistID r) with (i + (curHistID r - i)) at 1 by lia.
      rewrite seqZ_app, Z.add_0_l by lia.
      rewrite (seqZ_cons i) by lia.
      apply fold_entries_last.
      * unfold snapshot_entry. by rewrite Hname, Hh.
      * intros j v [Hj0 Hj1]%elem_of_seqZ E. unfold snapshot_entry in E.
        destruct (slice_get (hnames r) j) as [nm|] eqn:En; [|done].
        destruct (slice_get (hists r) j) as [[hj|]|]; try done.
        injection E as -> _. apply (Hlast j); [lia|done].
  - intros name snap Hm.
    apply fold_entries_lookup in Hm as [Hm|(j & [Hj0 Hj1]%elem_of_seqZ & E)];
      [by rewrite lookup_empty in Hm|].
    unfold snapshot_entry in E.
    destruct (slice_get (hnames r) j) as [nm|] eqn:En; [|done].
    destruct (slice_get (hists r) j) as [[hj|]|] eqn:Eh; try done.
    injection E as -> <-. exists j, hj. repeat split; (done || lia).
Qed.

Lemma C9_export_last_registration_wins_witness :
  let ops := [OpAddHistogram "size" false; OpObserveHist 0 7;
              OpAddHistogram "size" true; OpObserveHist 1 9] in
  let r := snd (run ops init_registry) in
  let n := curHistID r in
  exists m,
    getAllHistograms r = (Ret m, extract_hists 0 n r)
    /\ m = fold_entries (snapshot_entry r) ∅ (seqZ 0 n)
    /\ (forall i, 0 <= i < n ->
        exists name h,
          slice_get (hnames r) i = Some name
          /\ slice_get (hists r) i = Some (Some h)
          /\ slice_get (hists (extract_hists 0 n r)) i
             = Some (Some (fst (extractAndReset h)))
          /\ ((forall j, i < j < n -> slice_get (hnames r) j <> Some name) ->
              m !! name = Some (snd (extractAndReset h))))
    /\ (forall name snap, m !! name = Some snap ->
        exists i h,
          0 <= i < n
          /\ slice_get (hnames r) i = Some name
          /\ slice_get (hists r) i = Some (Some h)
          /\ snap = snd (extractAndReset h)).
Proof.
  apply (C9_export_last_registration_wins
           [OpAddHistogram "size" false; OpObserveHist 0 7;
            OpAddHistogram "size" true; OpObserveHist 1 9]).
  vm_compute. reflexivity.
Defined.

(** * Further properties of the package *)

Lemma registered_other r i sampled h b id h' b' :
  registered r i sampled h b -> 0 <= id -> i <> id ->
  registered (with_bhist id b' (with_hist id h' r)) i sampled h b.
Proof.
  intros [R1 R2 R3 R4 R5 R6] Hid Hne.
  split; cbn [hists bhists hsampled with_bhist with_hist set_bhists set_hists];
    try done; rewrite slice_get_insert_ne by lia; done.
Qed.

(** X1: [ObserveHist] with a handle that no [AddHistogram] has returned
    panics before it writes anything: with the runtime's nil-pointer error
    when the handle is below 1024 (the slot of [hists] is still nil), with
    its index error from 1024 on.  The tables are left as they were. *)
Theorem X1_observe_unregistered_panics ops id value :
  fst (run ops init_registry) = Ret tt ->
  count_adds ops <= id ->
  ObserveHist id value (snd (run ops init_registry))
  = (Panic (if id <? maxNumHists then NilDereference else IndexOutOfRange),
     snd (run ops init_registry)).
Proof.
  intros Hrun Hid.
  destruct (run_wf ops init_registry wf_init Hrun) as [Hwf Hcur].
  cbn [curHistID init_registry] in Hcur. rewrite Z.add_0_l in Hcur.
  set (r := snd (run ops init_registry)) in *.
  pose proof (wf_cur _ Hwf) as Hc. pose proof (wf_hists _ Hwf) as Hlen.
  unfold ObserveHist. apply bind_panic. unfold deref, index, bind, gets.
  destruct (Z.ltb_spec id maxNumHists) as [Hlt|Hge].
  - destruct (slice_get_in_range (hists r) id) as [p Hp]; [lia|].
    rewrite Hp. destruct p as [h|]; [|done].
    destruct (wf_unreg_hists _ Hwf id h); [lia|done].
  - assert (slice_get (hists r) id = None) as ->; [|done].
    rewrite slice_get_lookup by (unfold maxNumHists in *; lia).
    apply lookup_ge_None. lia.
Qed.

Lemma X1_observe_unregistered_panics_witness :
  let ops := [OpAddHistogram "latency" false; OpObserveHist 0 5] in
  ObserveHist 1 7 (snd (run ops init_registry))
  = (Panic (if 1 <? maxNumHists then NilDereference else IndexOutOfRange),
     snd (run ops init_registry)).
Proof.
  apply (X1_observe_unregistered_panics
           [OpAddHistogram "latency" false; OpObserveHist 0 5] 1 7).
  - vm_compute. reflexivity.
  - vm_compute. discriminate.
Defined.

(** X2: an observation touches nothing but the primary buffer and the bucket
    counters of its own handle: the names, the sampling flags, the handle
    counter, the entries of every other handle and the secondary buffer of
    its own handle are what they were. *)
Theorem X2_observe_frame r id sampled h b value :
  registered r id sampled h b ->
  let r' := snd (ObserveHist id value r) in
  fst (ObserveHist id value r) = Ret tt
  /\ hnames r' = hnames r /\ hsampled r' = hsampled r
  /\ curHistID r' = curHistID r
  /\ (forall j, j <> id ->
      slice_get (hists r') j = slice_get (hists r) j
      /\ slice_get (bhists r') j = slice_get (bhists r) j)
  /\ exists h', slice_get (hists r') id = Some (Some h') /\ sec h' = sec h.
Proof.
  intros Hreg. cbv zeta. rewrite (ObserveHist_run _ _ _ _ _ value Hreg).
  pose proof (slice_get_bounds _ _ _ (reg_hist _ _ _ _ _ Hreg)) as Hid.
  cbn [fst snd hnames hsampled curHistID hists bhists with_bhist with_hist
       set_bhists set_hists].
  repeat split; try done.
  - apply slice_get_insert_ne; lia.
  - apply slice_get_insert_ne; lia.
  - exists (Hist (observe_hdat sampled value (prim h)) (sec h)).
    split; [|reflexivity].
    eapply slice_get_insert_eq. apply Hreg.
Qed.

Lemma X2_observe_frame_witness :
  let r := registry_with_one "latency" false in
  let r' := snd (ObserveHist 0 9 r) in
  fst (ObserveHist 0 9 r) = Ret tt
  /\ hnames r' = hnames r /\ hsampled r' = hsampled r
  /\ curHistID r' = curHistID r
  /\ (forall j, j <> 0 ->
      slice_get (hists r') j = slice_get (hists r) j
      /\ slice_get (bhists r') j = slice_get (bhists r) j)
  /\ exists h', slice_get (hists r') 0 = Some (Some h') /\ sec h' = sec newHist.
Proof.
  apply (X2_observe_frame (registry_with_one "latency" false) 0 false
           newHist newBHist 9).
  apply registry_with_one_registered.
Defined.

(** X3: observations on two different registered handles commute: either
    order ends without panic in the same state. *)
Theorem X3_observations_commute r id1 s1 h1 b1 v1 id2 s2 h2 b2 v2 :
  registered r id1 s1 h1 b1 ->
  registered r id2 s2 h2 b2 ->
  id1 <> id2 ->
  (ObserveHist id1 v1 ;; ObserveHist id2 v2) r
  = (ObserveHist id2 v2 ;; ObserveHist id1 v1) r
  /\ fst ((ObserveHist id1 v1 ;; ObserveHist id2 v2) r) = Ret tt.
Proof.
  intros Hr1 Hr2 Hne.
  pose proof (slice_get_bounds _ _ _ (reg_hist _ _ _ _ _ Hr1)) as Hi1.
  pose proof (slice_get_bounds _ _ _ (reg_hist _ _ _ _ _ Hr2)) as Hi2.
  rewrite (bind_run _ _ _ _ _ (ObserveHist_run _ _ _ _ _ v1 Hr1)).
  rewrite (bind_run _ _ _ _ _ (ObserveHist_run _ _ _ _ _ v2 Hr2)).
  erewrite ObserveHist_run
    by (apply registered_other; [exact Hr2|lia|congruence]).
  erewrite ObserveHist_run
    by (apply registered_other; [exact Hr1|lia|congruence]).
  split; [|done]. f_equal.
  unfold with_bhist, with_hist, set_bhists, set_hists. cbn. f_equal.
  - apply list_insert_insert_ne. lia.
  - apply list_insert_insert_ne. lia.
Qed.

Lemma X3_observations_commute_witness :
  let r := snd (run [OpAddHistogram "latency" false; OpAddHistogram "size" true]
                    init_registry) in
  (ObserveHist 0 5 ;; ObserveHist 1 6) r = (ObserveHist 1 6 ;; ObserveHist 0 5) r
  /\ fst ((ObserveHist 0 5 ;; ObserveHist 1 6) r) = Ret tt.
Proof.
  cbv zeta.
  assert (Hrun : fst (run [OpAddHistogram "latency" false;
                           OpAddHistogram "size" true] init_registry) = Ret tt)
    by (vm_compute; reflexivity).
  destruct (run_wf _ init_registry wf_init Hrun) as [Hwf Hcur].
  destruct (wf_reg _ Hwf 0) as (s1 & h1 & b1 & Hr1); [rewrite Hcur; cbn; lia|].
  destruct (wf_reg _ Hwf 1) as (s2 & h2 & b2 & Hr2); [rewrite Hcur; cbn; lia|].
  apply (X3_observations_commute _ 0 s1 h1 b1 5 1 s2 h2 b2 6 Hr1 Hr2).
  discriminate.
Defined.

(** X4: whatever a registered histogram went through before, one
    [extractAndReset] starts a clean interval: the observations v1..vn made
    after it are all that the next snapshot reports, [count] and [total]
    being n and the sum modulo 2^64, [min] and [max] the least and the
    greatest of the values. *)
Theorem X4_extract_starts_clean_interval r id sampled h b vs :
  registered r id sampled h b ->
  vs <> [] ->
  Forall (fun v => 0 <= v <= MaxUint64) vs ->
  exists snap,
    fst ((call_extractAndReset id ;; observe_then_extract id vs) r) = Ret snap
    /\ count snap = wrap64 (Z.of_nat (length vs))
    /\ total snap = wrap64 (sum_list vs)
    /\ min snap ∈ vs /\ (forall v, v ∈ vs -> min snap <= v)
    /\ max snap ∈ vs /\ (forall v, v ∈ vs -> v <= max snap).
Proof.
  intros Hreg Hne Hall.
  rewrite (bind_run _ _ _ _ _
             (call_extractAndReset_run _ _ _ (reg_hist _ _ _ _ _ Hreg))).
  assert (Hreg1 : registered (with_hist id (Hist (reset (sec h)) (prim h)) r)
                    id sampled (Hist (reset (sec h)) (prim h)) b).
  { rewrite <- (with_bhist_same (with_hist _ _ r) id b) by apply Hreg.
    apply (registered_with _ _ _ _ _ _ _ Hreg); cbn [prim sec reset buf set_min
      set_max set_total set_kept set_count]; [|by rewrite <- Nat2Z.inj_iff, (reg_prim_buf _ _ _ _ _ Hreg), (reg_sec_buf _ _ _ _ _ Hreg)|done].
    by rewrite <- Nat2Z.inj_iff, (reg_prim_buf _ _ _ _ _ Hreg),
         (reg_sec_buf _ _ _ _ _ Hreg). }
  eexists. split; [by eapply observe_then_extract_run|].
  cbn [prim].
  destruct (fresh_spec sampled vs _ (reset_fresh (sec h)))
    as (Hc & _ & Ht & Hmax & Hmin & _).
  destruct (foldl_max_fresh vs Hne Hall) as [Hmax1 Hmax2].
  destruct (foldl_min_fresh vs Hne Hall) as [Hmin1 Hmin2].
  rewrite Hc, Ht, Hmax, Hmin. done.
Qed.

Lemma X4_extract_starts_clean_interval_witness :
  let r := snd (observe_all 0 [1000; 2000] (registry_with_one "latency" false)) in
  exists snap,
    fst ((call_extractAndReset 0 ;; observe_then_extract 0 [3; 1; 2]) r) = Ret snap
    /\ count snap = wrap64 (Z.of_nat (length [3; 1; 2]))
    /\ total snap = wrap64 (sum_list [3; 1; 2])
    /\ min snap ∈ [3; 1; 2] /\ (forall v, v ∈ [3; 1; 2] -> min snap <= v)
    /\ max snap ∈ [3; 1; 2] /\ (forall v, v ∈ [3; 1; 2] -> v <= max snap).
Proof.
  cbv zeta.
  eapply (X4_extract_starts_clean_interval _ 0 false
            (Hist (observe_all_hdat false [1000; 2000] (prim newHist)) (sec newHist))
            (observe_all_bhist [1000; 2000] newBHist)).
  - apply observe_all_registered, registry_with_one_registered.
  - discriminate.
  - repeat constructor; unfold MaxUint64; lia.
Defined.

Lemma foldl_max_perm vs vs' :
  vs ≡ₚ vs' -> forall m, foldl Z.max m vs = foldl Z.max m vs'.
Proof.
  induction 1 as [|x l l' _ IH|x y l|l1 l2 l3 _ IH1 _ IH2]; intros m; cbn.
  - done.
  - apply IH.
  - f_equal. lia.
  - by rewrite IH1.
Qed.

Lemma foldl_min_perm vs vs' :
  vs ≡ₚ vs' -> forall m, foldl Z.min m vs = foldl Z.min m vs'.
Proof.
  induction 1 as [|x l l' _ IH|x y l|l1 l2 l3 _ IH1 _ IH2]; intros m; cbn.
  - done.
  - apply IH.
  - f_equal. lia.
  - by rewrite IH1.
Qed.

Lemma sum_list_perm vs vs' : vs ≡ₚ vs' -> sum_list vs = sum_list vs'.
Proof.
  unfold sum_list.
  induction 1 as [|x l l' _ IH|x y l|l1 l2 l3 _ IH1 _ IH2]; cbn; lia.
Qed.

(** X5: the aggregates of an interval do not depend on the order of its
    observations: two runs of the same values in different orders on a fresh
    histogram give snapshots with the same [count], [total], [min] and
    [max]. *)
Theorem X5_aggregates_order_independent r id sampled h b vs vs' :
  registered r id sampled h b ->
  fresh (prim h) ->
  vs ≡ₚ vs' ->
  exists snap snap',
    fst (observe_then_extract id vs r) = Ret snap
    /\ fst (observe_then_extract id vs' r) = Ret snap'
    /\ count snap = count snap' /\ total snap = total snap'
    /\ min snap = min snap' /\ max snap = max snap'.
Proof.
  intros Hreg Hfresh Hperm.
  eexists _, _. split; [by eapply observe_then_extract_run|].
  split; [by eapply observe_then_extract_run|].
  destruct (fresh_spec sampled vs _ Hfresh) as (Hc & _ & Ht & Hmax & Hmin & _).
  destruct (fresh_spec sampled vs' _ Hfresh) as (Hc' & _ & Ht' & Hmax' & Hmin' & _).
  rewrite Hc, Hc', Ht, Ht', Hmax, Hmax', Hmin, Hmin'.
  rewrite (Permutation_length Hperm), (sum_list_perm _ _ Hperm).
  by rewrite (foldl_max_perm _ _ Hperm), (foldl_min_perm _ _ Hperm).
Qed.

Lemma X5_aggregates_order_independent_witness :
  exists snap snap',
    fst (observe_then_extract 0 [3; 1; 2] (registry_with_one "latency" true))
    = Ret snap
    /\ fst (observe_then_extract 0 [2; 3; 1] (registry_with_one "latency" true))
       = Ret snap'
    /\ count snap = count snap' /\ total snap = total snap'
    /\ min snap = min snap' /\ max snap = max snap'.
Proof.
  apply (X5_aggregates_order_independent (registry_with_one "latency" true) 0
           true newHist newBHist [3; 1; 2] [2; 3; 1]).
  - apply registry_with_one_registered.
  - apply fresh_newHdat.
  - etrans; [apply perm_skip, perm_swap|apply perm_swap].
Defined.

(** X6: on a histogram registered without sampling, the n < 32768 values
    observed in an interval are all retained and lie in the sample buffer in
    the order of their arrival, in the slots 1 to n; slot 0 and the slots
    above n keep what they held before the interval. *)
Theorem X6_unsampled_samples_in_order r id h b vs :
  registered r id false h b ->
  fresh (prim h) ->
  Z.of_nat (length vs) < 32768 ->
  exists snap,
    fst (observe_then_extract id vs r) = Ret snap
    /\ kept snap = Z.of_nat (length vs)
    /\ take (length vs) (drop 1 (buf snap)) = vs
    /\ buf snap !! 0%nat = buf (prim h) !! 0%nat
    /\ drop (S (length vs)) (buf snap) = drop (S (length vs)) (buf (prim h)).
Proof.
  intros Hreg Hfresh Hn.
  exists (observe_all_hdat false vs (prim h)).
  split; [by eapply observe_then_extract_run|].
  destruct (fresh_spec false vs _ Hfresh) as (_ & Hk & _ & _ & _ & Hb).
  rewrite retained_unsampled in Hk, Hb. rewrite Hk, Hb.
  assert (Hl : Z.of_nat (length (buf (prim h))) = 32768) by apply Hreg.
  split; [apply wrap64_small; unfold MaxUint64; lia|].
  split; [|split].
  - apply list_eq. intros i. destruct (decide (i < length vs)%nat) as [Hi|Hi].
    + rewrite lookup_take_lt, lookup_drop by done.
      pose proof (write_all_recent vs 0 (buf (prim h)) (Z.of_nat (1 + i)) Hl) as Hw.
      rewrite Z.add_0_l, Z.mod_small, Nat2Z.id in Hw by lia.
      rewrite Hw by lia. f_equal. lia.
    + rewrite lookup_take_ge by lia. symmetry. apply lookup_ge_None. lia.
  - apply write_all_untouched. intros i Hi.
    rewrite Z.add_0_l, Z.mod_small by lia. lia.
  - apply list_eq. intros i. rewrite !lookup_drop.
    apply write_all_untouched. intros j Hj.
    rewrite Z.add_0_l, Z.mod_small by lia. lia.
Qed.

Lemma X6_unsampled_samples_in_order_witness :
  let vs := [11; 12; 13] in
  exists snap,
    fst (observe_then_extract 0 vs (registry_with_one "latency" false)) = Ret snap
    /\ kept snap = Z.of_nat (length vs)
    /\ take (length vs) (drop 1 (buf snap)) = vs
    /\ buf snap !! 0%nat = buf (prim newHist) !! 0%nat
    /\ drop (S (length vs)) (buf snap) = drop (S (length vs)) (buf (prim newHist)).
Proof.
  apply (X6_unsampled_samples_in_order (registry_with_one "latency" false) 0
           newHist newBHist [11; 12; 13]).
  - apply registry_with_one_registered.
  - apply fresh_newHdat.
  - cbn. lia.
Defined.

(** With sampling, the retained values are those at every fourth position,
    counted from the start of the interval. *)
Lemma retained_sampled_lookup vs : forall c (i : nat),
  0 <= c ->
  retained true c vs !! i = vs !! (Z.to_nat (3 - c mod 4) + 4 * i)%nat.
Proof.
  induction vs as [|v vs IH]; intros c i Hc; [done|].
  cbn [retained andb].
  assert (Hm : 0 <= c mod 4 < 4) by (apply Z.mod_pos_bound; lia).
  destruct (Z.eqb_spec ((c + 1) mod 4) 0) as [E|E]; cbn [negb].
  - assert (c mod 4 = 3) as -> by (Z.div_mod_to_equations; lia).
    destruct i as [|i]; [done|].
    cbn [lookup list_lookup]. rewrite IH, E by lia.
    replace (Z.to_nat (3 - 3) + 4 * S i)%nat
      with (S (Z.to_nat (3 - 0) + 4 * i))%nat by lia.
    done.
  - rewrite IH by lia.
    assert ((c + 1) mod 4 = c mod 4 + 1) as -> by (Z.div_mod_to_equations; lia).
    assert (c mod 4 <> 3) by (Z.div_mod_to_equations; lia).
    replace (Z.to_nat (3 - c mod 4) + 4 * i)%nat
      with (S (Z.to_nat (3 - (c mod 4 + 1)) + 4 * i))%nat by lia.
    done.
Qed.

(** X7: on a histogram registered with sampling, an interval of n
    observations (n below 4 * 32768) keeps the 4th, 8th, 12th, ... of them:
    [kept] is n / 4 and slot i of the sample buffer holds the observation
    number 4 * i, for i from 1 to n / 4. *)
Theorem X7_sampled_keeps_every_fourth r id h b vs :
  registered r id true h b ->
  fresh (prim h) ->
  Z.of_nat (length vs) < 4 * 32768 ->
  exists snap,
    fst (observe_then_extract id vs r) = Ret snap
    /\ kept snap = Z.of_nat (length vs) / 4
    /\ (forall i, 1 <= i <= Z.of_nat (length vs) / 4 ->
        buf snap !! Z.to_nat i = vs !! Z.to_nat (4 * i - 1)).
Proof.
  intros Hreg Hfresh Hn.
  exists (observe_all_hdat true vs (prim h)).
  split; [by eapply observe_then_extract_run|].
  destruct (fresh_spec true vs _ Hfresh) as (_ & Hk & _ & _ & _ & Hb).
  pose proof (retained_sampled_length vs 0 ltac:(lia)) as Hlen.
  change (0 / 4) with 0 in Hlen. rewrite Z.add_0_l, Z.sub_0_r in Hlen.
  assert (Hq : 0 <= Z.of_nat (length vs) / 4 < 32768)
    by (Z.div_mod_to_equations; lia).
  rewrite Hk, Hb, Hlen.
  split; [apply wrap64_small; unfold MaxUint64; lia|].
  intros i Hi.
  pose proof (write_all_recent (retained true 0 vs) 0 (buf (prim h)) i) as Hw.
  rewrite Z.add_0_l, Z.mod_small in Hw by lia.
  rewrite Hw; [|apply Hreg|lia|lia].
  rewrite retained_sampled_lookup by lia. f_equal.
  change (0 mod 4) with 0. lia.
Qed.

Lemma X7_sampled_keeps_every_fourth_witness :
  let vs := [1; 2; 3; 4; 5; 6; 7; 8; 9] in
  exists snap,
    fst (observe_then_extract 0 vs (registry_with_one "size" true)) = Ret snap
    /\ kept snap = Z.of_nat (length vs) / 4
    /\ (forall i, 1 <= i <= Z.of_nat (length vs) / 4 ->
        buf snap !! Z.to_nat i = vs !! Z.to_nat (4 * i - 1)).
Proof.
  apply (X7_sampled_keeps_every_fourth (registry_with_one "size" true) 0
           newHist newBHist [1; 2; 3; 4; 5; 6; 7; 8; 9]).
  - apply registry_with_one_registered.
  - apply fresh_newHdat.
  - cbn. lia.
Defined.

(** ** The bucket counters count the observations *)

Lemma sum_list_cons a (l : list Z) : sum_list (a :: l) = a + sum_list l.
Proof. done. Qed.

Lemma sum_list_insert (l : list Z) i x y :
  l !! i = Some x -> sum_list (<[i := y]> l) = sum_list l - x + y.
Proof.
  revert i. induction l as [|a l IH]; intros [|i] H; try done.
  - injection H as ->. change (<[0%nat := y]> (x :: l)) with (y :: l).
    rewrite !sum_list_cons. lia.
  - change (<[S i := y]> (a :: l)) with (a :: <[i := y]> l).
    rewrite !sum_list_cons, (IH i H). lia.
Qed.

Lemma sum_list_nonneg (l : list Z) :
  Forall (fun x => 0 <= x) l -> 0 <= sum_list l.
Proof. induction 1; rewrite ?sum_list_cons; [done|lia]. Qed.

Lemma sum_list_bound (l : list Z) i x :
  Forall (fun x => 0 <= x) l -> l !! i = Some x -> 0 <= x <= sum_list l.
Proof.
  intros Hl. revert i.
  induction Hl as [|a l Ha Hl IH]; intros [|i] H; try done;
    rewrite sum_list_cons.
  - injection H as ->. pose proof (sum_list_nonneg l Hl). lia.
  - specialize (IH i H). lia.
Qed.

Lemma sum_list_replicate_0 n : sum_list (replicate n 0) = 0.
Proof.
  induction n as [|n IH]; [done|].
  change (replicate (S n) 0) with (0 :: replicate n 0).
  rewrite sum_list_cons, IH. done.
Qed.

Lemma count_obs_app id ops1 ops2 :
  count_obs id (ops1 ++ ops2) = count_obs id ops1 + count_obs id ops2.
Proof.
  induction ops1 as [|o ops1 IH]; [cbn; lia|].
  destruct o; cbn [app count_obs]; lia.
Qed.

Lemma count_obs_bound id ops : 0 <= count_obs id ops <= Z.of_nat (length ops).
Proof.
  induction ops as [|o ops IH]; [cbn; lia|].
  destruct o; cbn [length count_obs]; try case_decide; lia.
Qed.

Lemma bucket_sums_init : bucket_sums [] init_registry.
Proof.
  intros id. split; [|done]. intros b Hb.
  by apply slice_get_replicate_None in Hb.
Qed.

Lemma step_bucket_sums ops0 r o r1 :
  wf r -> bucket_sums ops0 r -> Z.of_nat (length ops0) < MaxUint64 ->
  step_result r o (Ret tt) r1 -> bucket_sums (ops0 ++ [o]) r1.
Proof.
  intros Hwf HJ Hlen Hstep id. rewrite count_obs_app.
  destruct (HJ id) as [Hsum Hzero]. pose proof (wf_cur _ Hwf) as Hc.
  inversion Hstep; subst; cbn [count_obs].
  - rewrite AddHistogram_run by done. cbn [snd bhists curHistID]. split.
    + intros b. rewrite slice_get_insert
        by (pose proof (wf_bhists _ Hwf); lia).
      case_decide as Hid.
      * intros [= <-]. subst id. unfold newBHist. cbn [buckets].
        split; [apply Forall_replicate; lia|].
        rewrite sum_list_replicate_0, Hzero by lia. lia.
      * intros Hb. destruct (Hsum b Hb) as [? ->]. split; [done|lia].
    + intros Hid. rewrite Hzero by lia. lia.
  - match goal with H : registered _ _ _ _ _ |- _ => rename H into Hreg end.
    pose proof (reg_bhist _ _ _ _ _ Hreg) as Hb0.
    pose proof (slice_get_bounds _ _ _ Hb0) as Hid0.
    pose proof (registered_below_cur _ _ _ _ _ Hwf Hreg) as Hlt.
    cbn [bhists curHistID with_bhist with_hist set_bhists set_hists]. split.
    + intros b'. rewrite slice_get_insert by lia. case_decide as Hid.
      * intros [= <-]. subst id0. destruct (Hsum b Hb0) as [Hnn Hs].
        pose proof (lzcnt_range value) as Hlz.
        destruct (lookup_lt_is_Some_2 (buckets b) (Z.to_nat (lzcnt value)))
          as [x Hx].
        { pose proof (reg_buckets _ _ _ _ _ Hreg). unfold bhistlen in *. lia. }
        pose proof (sum_list_bound _ _ _ Hnn Hx) as Hxb.
        pose proof (count_obs_bound id ops0) as Hcb.
        unfold observe_bhist. cbn [buckets].
        rewrite (list_lookup_total_correct _ _ _ Hx).
        rewrite wrap64_small by lia. split.
        -- apply Forall_insert; [done|lia].
        -- rewrite (sum_list_insert _ _ _ _ Hx). lia.
      * intros Hb. destruct (Hsum b' Hb) as [? ->]. split; [done|lia].
    + intros Hid. rewrite Hzero by done. rewrite decide_False by lia. lia.
  - cbn [bhists curHistID with_hist set_hists]. split.
    + intros b' Hb. destruct (Hsum b' Hb) as [? ->]. split; [done|lia].
    + intros Hid. rewrite Hzero by done. lia.
  - cbn [bhists curHistID extract_hists set_hists]. split.
    + intros b' Hb. destruct (Hsum b' Hb) as [? ->]. split; [done|lia].
    + intros Hid. rewrite Hzero by done. lia.
  - split.
    + intros b' Hb. destruct (Hsum b' Hb) as [? ->]. split; [done|lia].
    + intros Hid. rewrite Hzero by done. lia.
Qed.

Lemma run_bucket_sums ops : forall ops0 r,
  wf r -> bucket_sums ops0 r ->
  Z.of_nat (length (ops0 ++ ops)) <= MaxUint64 ->
  fst (run ops r) = Ret tt ->
  bucket_sums (ops0 ++ ops) (snd (run ops r)).
Proof.
  induction ops as [|o ops IH]; intros ops0 r Hwf HJ Hlen Hrun.
  - by rewrite app_nil_r.
  - rewrite run_cons in *. pose proof (step_spec r o Hwf) as Hstep.
    destruct (fst (step o r)) as [[]|e]; [|done].
    rewrite length_app in Hlen. cbn [length] in Hlen.
    replace (ops0 ++ o :: ops) with ((ops0 ++ [o]) ++ ops)
      by (by rewrite <- app_assoc).
    apply IH; [by eapply step_result_wf| |rewrite !length_app; cbn; lia|done].
    eapply step_bucket_sums; [done..|lia|done].
Qed.

(** X8: after a run of calls without panic (fewer than 2^64 of them), the 65
    bucket counters of every handle add up to the number of [ObserveHist]
    calls made with that handle: each observation is counted in exactly one
    bucket, and neither export nor [extractAndReset] takes any away. *)
Theorem X8_buckets_count_observations ops id b :
  fst (run ops init_registry) = Ret tt ->
  Z.of_nat (length ops) <= MaxUint64 ->
  slice_get (bhists (snd (run ops init_registry))) id = Some (Some b) ->
  sum_list (buckets b) = count_obs id ops.
Proof.
  intros Hrun Hlen Hb.
  pose proof (run_bucket_sums ops [] init_registry wf_init bucket_sums_init
                Hlen Hrun) as HJ.
  by destruct (HJ id) as [Hsum _], (Hsum b Hb).
Qed.

Lemma X8_buckets_count_observations_witness :
  let ops := [OpAddHistogram "latency" false; OpObserveHist 0 7;
              OpGetAllHistograms; OpObserveHist 0 0; OpObserveHist 0 7;
              OpExtractAndReset 0] in
  sum_list (buckets (observe_all_bhist [7; 0; 7] newBHist)) = count_obs 0 ops.
Proof.
  apply (X8_buckets_count_observations
           [OpAddHistogram "latency" false; OpObserveHist 0 7;
            OpGetAllHistograms; OpObserveHist 0 0; OpObserveHist 0 7;
            OpExtractAndReset 0] 0 (observe_all_bhist [7; 0; 7] newBHist)).
  - vm_compute. reflexivity.
  - cbn. unfold MaxUint64. lia.
  - vm_compute. reflexivity.
Defined.

(** ** Exports one after the other *)

(** X9: [getAllHistograms] leaves every registered histogram reset: a second
    [getAllHistograms] right after the first returns a map that still has
    every registered name, each with an empty snapshot ([count], [kept],
    [total] and [max] zero, [min] at [math.MaxUint64]). *)
Theorem X9_second_export_is_empty ops :
  fst (run ops init_registry) = Ret tt ->
  let r := snd (run ops init_registry) in
  let r1 := snd (getAllHistograms r) in
  exists m2,
    fst (getAllHistograms r1) = Ret m2
    /\ (forall i, 0 <= i < curHistID r ->
        exists name, slice_get (hnames r) i = Some name /\ is_Some (m2 !! name))
    /\ (forall name snap, m2 !! name = Some snap -> fresh snap).
Proof.
  intros Hrun. cbv zeta.
  destruct (run_wf ops init_registry wf_init Hrun) as [Hwf _].
  set (r := snd (run ops init_registry)) in *.
  destruct (getAllHistograms_run r Hwf) as (Hget & Hwf1 & _).
  rewrite Hget. cbn [snd].
  set (r1 := extract_hists 0 (curHistID r) r) in *.
  destruct (getAllHistograms_run r1 Hwf1) as (Hget1 & _).
  rewrite Hget1. cbn [fst]. eexists. split; [done|].
  assert (Hext : forall j, 0 <= j < curHistID r -> forall h,
            slice_get (hists r) j = Some (Some h) ->
            slice_get (hists r1) j = Some (Some (fst (extractAndReset h)))).
  { intros j Hj h Hh. subst r1. rewrite extract_hists_get, Hh.
    destruct (Z.leb_spec 0 j), (Z.ltb_spec j (curHistID r)); try lia. done. }
  assert (Hcur : curHistID r1 = curHistID r) by done.
  assert (Hnames : hnames r1 = hnames r) by done.
  split.
  - intros i Hi.
    destruct (wf_reg _ Hwf i Hi) as (s & h & b & Hreg).
    destruct (name_in_range r i Hwf Hi) as [name Hname].
    exists name. split; [done|]. apply fold_entries_is_Some. right.
    eexists i, _. split; [apply elem_of_seqZ; lia|].
    unfold snapshot_entry.
    by rewrite Hnames, Hname, (Hext i Hi h (reg_hist _ _ _ _ _ Hreg)).
  - intros name snap Hm.
    apply fold_entries_lookup in Hm as [Hm|(j & [Hj0 Hj1]%elem_of_seqZ & E)];
      [by rewrite lookup_empty in Hm|].
    rewrite Hcur in Hj1.
    destruct (wf_reg _ Hwf j) as (s & h & b & Hreg); [lia|].
    unfold snapshot_entry in E.
    rewrite (Hext j ltac:(lia) h (reg_hist _ _ _ _ _ Hreg)) in E.
    destruct (slice_get (hnames r1) j); [|done].
    injection E as _ <-. apply (reset_fresh (sec h)).
Qed.

Lemma X9_second_export_is_empty_witness :
  let ops := [OpAddHistogram "latency" false; OpObserveHist 0 7;
              OpAddHistogram "size" true; OpObserveHist 1 9] in
  let r := snd (run ops init_registry) in
  let r1 := snd (getAllHistograms r) in
  exists m2,
    fst (getAllHistograms r1) = Ret m2
    /\ (forall i, 0 <= i < curHistID r ->
        exists name, slice_get (hnames r) i = Some name /\ is_Some (m2 !! name))
    /\ (forall name snap, m2 !! name = Some snap -> fresh snap).
Proof.
  apply (X9_second_export_is_empty
           [OpAddHistogram "latency" false; OpObserveHist 0 7;
            OpAddHistogram "size" true; OpObserveHist 1 9]).
  vm_compute. reflexivity.
Defined.

(** ** Registration *)

(** X10: a registration that succeeds writes the table entries of the new
    handle and the counter, and nothing else: the name, the sampling flag,
    the histogram and the bucket histogram of every other handle are what
    they were. *)
Theorem X10_registration_frame ops name sampled :
  fst (run ops init_registry) = Ret tt ->
  count_adds ops < maxNumHists ->
  let r := snd (run ops init_registry) in
  let r' := snd (AddHistogram name sampled r) in
  fst (AddHistogram name sampled r) = Ret (count_adds ops)
  /\ curHistID r' = count_adds ops + 1
  /\ (forall j, j <> count_adds ops ->
      slice_get (hnames r') j = slice_get (hnames r) j
      /\ slice_get (hsampled r') j = slice_get (hsampled r) j
      /\ slice_get (hists r') j = slice_get (hists r) j
      /\ slice_get (bhists r') j = slice_get (bhists r) j).
Proof.
  intros Hrun Hlt. cbv zeta.
  destruct (run_wf ops init_registry wf_init Hrun) as [Hwf Hcur].
  cbn [curHistID init_registry] in Hcur. rewrite Z.add_0_l in Hcur.
  set (r := snd (run ops init_registry)) in *.
  pose proof (wf_cur _ Hwf) as Hc.
  rewrite AddHistogram_run by (done || lia).
  cbn [fst snd curHistID hnames hsampled hists bhists]. rewrite Hcur.
  split; [done|]. split; [done|].
  intros j Hj. repeat split; apply slice_get_insert_ne; lia.
Qed.

Lemma X10_registration_frame_witness :
  let ops := [OpAddHistogram "latency" false; OpObserveHist 0 5] in
  let r := snd (run ops init_registry) in
  let r' := snd (AddHistogram "size" true r) in
  fst (AddHistogram "size" true r) = Ret (count_adds ops)
  /\ curHistID r' = count_adds ops + 1
  /\ (forall j, j <> count_adds ops ->
      slice_get (hnames r') j = slice_get (hnames r) j
      /\ slice_get (hsampled r') j = slice_get (hsampled r) j
      /\ slice_get (hists r') j = slice_get (hists r) j
      /\ slice_get (bhists r') j = slice_get (bhists r) j).
Proof.
  apply (X10_registration_frame
           [OpAddHistogram "latency" false; OpObserveHist 0 5] "size" true).
  - vm_compute. reflexivity.
  - vm_compute. reflexivity.
Defined.















(** ** The shape of the tables *)



(** ** [kept] follows [count] *)

Lemma kept_matches_fresh sampled d : fresh d -> kept_matches sampled d.
Proof.
  intros (Hc & Hk & _). unfold kept_matches. rewrite Hc, Hk. by destruct sampled.
Qed.

Lemma observe_hdat_kept_matches C sampled v d :
  dat_ok C d -> C < MaxUint64 -> kept_matches sampled d ->
  kept_matches sampled (observe_hdat sampled v d).
Proof.
  intros (Hk & Hc & _) HC Hm. unfold kept_matches in *.
  pose proof (observe_hdat_fields sampled v d) as (Fc & Fk & _).
  cbv zeta in *.
  rewrite land3_wrap64 in Fk.
  rewrite (wrap64_small (count d + 1)) in Fc by lia.
  rewrite (wrap64_small (kept d + 1)) in Fk by lia.
  rewrite Fc, Fk, Hm. destruct sampled; cbn [andb negb]; [|done].
  destruct (Z.ltb_spec 0 ((count d + 1) mod 4)); cbn [negb];
    Z.div_mod_to_equations; lia.
Qed.

Lemma step_kept_inv C r o out r1 :
  wf r -> bounded C r -> C < MaxUint64 -> kept_inv r ->
  step_result r o out r1 -> kept_inv r1.
Proof.
  intros Hwf HB HC HK Hstep. pose proof (wf_cur _ Hwf) as Hc.
  pose proof (wf_hists _ Hwf) as Hlh. pose proof (wf_bhists _ Hwf) as Hlb.
  pose proof (wf_hsampled _ Hwf) as Hls.
  inversion Hstep; subst; intros i s' h' b' [R1 R2 R3 R4 R5 R6].
  - rewrite AddHistogram_run in R1, R2, R3 by done.
    cbn [snd hists bhists hsampled] in R1, R2, R3.
    rewrite slice_get_insert in R1 by lia.
    rewrite slice_get_insert in R2 by lia.
    rewrite slice_get_insert in R3 by lia.
    case_decide.
    + injection R1 as <-. split; apply kept_matches_fresh, fresh_newHdat.
    + by apply (HK i s' h' b').
  - by apply (HK i s' h' b').
  - match goal with H : registered _ _ _ _ _ |- _ => rename H into Hreg end.
    pose proof (slice_get_bounds _ _ _ (reg_hist _ _ _ _ _ Hreg)) as Hid.
    cbn [hists bhists hsampled with_bhist with_hist set_bhists set_hists]
      in R1, R2, R3.
    rewrite slice_get_insert in R1 by lia.
    rewrite slice_get_insert in R2 by lia.
    case_decide.
    + subst i. injection R1 as <-.
      rewrite (reg_sampled _ _ _ _ _ Hreg) in R3. injection R3 as <-.
      destruct (HK _ _ _ _ Hreg) as [Hp Hs].
      destruct (bounded_hists _ _ HB _ _ (reg_hist _ _ _ _ _ Hreg)) as [Bp _].
      split; [|done]. cbn [prim]. by eapply observe_hdat_kept_matches.
    + by apply (HK i s' h' b').
  - by apply (HK i s' h' b').
  - match goal with H : registered _ _ _ _ _ |- _ => rename H into Hreg end.
    pose proof (slice_get_bounds _ _ _ (reg_hist _ _ _ _ _ Hreg)) as Hid.
    cbn [hists bhists hsampled with_hist set_hists] in R1, R2, R3.
    rewrite slice_get_insert in R1 by lia.
    case_decide.
    + subst i. injection R1 as <-.
      rewrite (reg_sampled _ _ _ _ _ Hreg) in R3. injection R3 as <-.
      destruct (HK _ _ _ _ Hreg) as [Hp Hs].
      split; [apply (kept_matches_fresh _ (reset (sec h))), reset_fresh|done].
    + by apply (HK i s' h' b').
  - by apply (HK i s' h' b').
  - pose proof (slice_get_bounds _ _ _ R1) as Hib.
    rewrite extract_hists_get in R1.
    cbn [hsampled bhists extract_hists set_hists] in R2, R3.
    destruct (Z.leb_spec 0 i), (Z.ltb_spec i (curHistID r)); cbn [andb] in R1;
      try lia.
    + destruct (wf_reg _ Hwf i) as (s & h & b & Hreg); [lia|].
      rewrite (reg_hist _ _ _ _ _ Hreg) in R1. cbn in R1. injection R1 as <-.
      rewrite (reg_sampled _ _ _ _ _ Hreg) in R3. injection R3 as <-.
      destruct (HK _ _ _ _ Hreg) as [Hp Hs].
      split; [apply (kept_matches_fresh _ (reset (sec h))), reset_fresh|done].
    + by destruct (wf_unreg_hists _ Hwf i h').
  - by apply (HK i s' h' b').
Qed.

Lemma kept_inv_init : kept_inv init_registry.
Proof.
  intros i s h b [R1 _ _ _ _ _]. by apply slice_get_replicate_None in R1.
Qed.

Lemma run_kept_inv ops : forall C r,
  wf r -> bounded C r -> 0 <= C ->
  C + Z.of_nat (length ops) <= MaxUint64 ->
  Forall well_typed ops ->
  kept_inv r -> kept_inv (snd (run ops r)).
Proof.
  induction ops as [|o ops IH]; intros C r Hwf HB HC Hlen Hty HK; [done|].
  apply Forall_cons in Hty as [Hty1 Hty]. cbn [length] in *.
  rewrite run_cons. pose proof (step_spec r o Hwf) as Hstep.
  assert (HK1 : kept_inv (snd (step o r)))
    by (eapply step_kept_inv; [done..|lia|done|done]).
  assert (HB1 : bounded (C + 1) (snd (step o r)))
    by (eapply step_result_bounded; [done..|lia|done|done]).
  destruct (fst (step o r)) as [[]|e]; [|done].
  apply (IH (C + 1)); [by eapply step_result_wf|done|lia|lia|done|done].
Qed.

(** X13: in every state a panic-free run of fewer than 2^64 well-typed calls
    reaches, [kept] of both buffers of a histogram is determined by [count]
    and the sampling flag of its handle: [kept == count] without sampling and
    [kept == count / 4] (rounded down) with it. *)
Theorem X13_kept_follows_count ops :
  Forall well_typed ops ->
  Z.of_nat (length ops) <= MaxUint64 ->
  fst (run ops init_registry) = Ret tt ->
  let r := snd (run ops init_registry) in
  kept_table_inv r
  /\ (forall i sampled h,
        slice_get (hsampled r) i = Some sampled ->
        slice_get (hists r) i = Some (Some h) ->
        kept (prim h) = (if sampled then count (prim h) / 4 else count (prim h))
        /\ kept (sec h) = (if sampled then count (sec h) / 4 else count (sec h))).
Proof.
  intros Hty Hlen Hrun. cbv zeta.
  destruct (run_wf ops init_registry wf_init Hrun) as [Hwf _].
  pose proof (run_kept_inv ops 0 init_registry wf_init bounded_init ltac:(lia)
                ltac:(lia) Hty kept_inv_init) as HK.
  set (r := snd (run ops init_registry)) in *.
  assert (Hlookup : forall i sampled h,
            slice_get (hsampled r) i = Some sampled ->
            slice_get (hists r) i = Some (Some h) ->
            kept_matches sampled (prim h) /\ kept_matches sampled (sec h)).
  { intros i s h Hs Hh. pose proof (slice_get_bounds _ _ _ Hh) as Hi.
    destruct (Z.lt_ge_cases i (curHistID r)) as [Hlt|Hge];
      [|by destruct (wf_unreg_hists _ Hwf i h Hge)].
    destruct (wf_reg _ Hwf i) as (s' & h' & b' & Hreg); [lia|].
    rewrite (reg_sampled _ _ _ _ _ Hreg) in Hs. injection Hs as ->.
    rewrite (reg_hist _ _ _ _ _ Hreg) in Hh. injection Hh as ->.
    by apply (HK i s h b'). }
  split; [|exact Hlookup].
  unfold kept_table_inv. apply Forall2_same_length_lookup_2.
  - pose proof (wf_hsampled _ Hwf). pose proof (wf_hists _ Hwf). lia.
  - intros i s [h|] Hs Hh; [|done].
    apply (Hlookup (Z.of_nat i)); rewrite slice_get_lookup, Nat2Z.id by lia; done.
Qed.

Lemma X13_kept_follows_count_witness :
  let ops := [OpAddHistogram "size" true;
              OpObserveHist 0 1; OpObserveHist 0 2; OpObserveHist 0 3;
              OpObserveHist 0 4; OpObserveHist 0 5; OpObserveHist 0 6;
              OpExtractAndReset 0; OpObserveHist 0 5] in
  let r := snd (run ops init_registry) in
  kept_table_inv r
  /\ (forall i sampled h,
        slice_get (hsampled r) i = Some sampled ->
        slice_get (hists r) i = Some (Some h) ->
        kept (prim h) = (if sampled then count (prim h) / 4 else count (prim h))
        /\ kept (sec h) = (if sampled then count (sec h) / 4 else count (sec h))).
Proof.
  apply (X13_kept_follows_count
           [OpAddHistogram "size" true;
            OpObserveHist 0 1; OpObserveHist 0 2; OpObserveHist 0 3;
            OpObserveHist 0 4; OpObserveHist 0 5; OpObserveHist 0 6;
            OpExtractAndReset 0; OpObserveHist 0 5]).
  - repeat constructor; cbn; unfold MaxUint64; lia.
  - cbn. unfold MaxUint64. lia.
  - vm_compute. reflexivity.
Defined.

(** X14: the aggregate export does not touch the bucket histograms: what
    [getAllBucketHistograms] returns is the same before and after a
    [getAllHistograms]. *)
Theorem X14_bucket_export_unaffected ops :
  fst (run ops init_registry) = Ret tt ->
  let r := snd (run ops init_registry) in
  fst (getAllHistograms r)
  = Ret (fold_entries (snapshot_entry r) ∅ (seqZ 0 (curHistID r)))
  /\ bhists (snd (getAllHistograms r)) = bhists r
  /\ fst (getAllBucketHistograms (snd (getAllHistograms r)))
     = fst (getAllBucketHistograms r).
Proof.
  intros Hrun. cbv zeta.
  destruct (run_wf ops init_registry wf_init Hrun) as [Hwf _].
  set (r := snd (run ops init_registry)) in *.
  destruct (getAllHistograms_run r Hwf) as (Hget & Hwf1 & _).
  rewrite Hget. cbn [fst snd]. split; [done|]. split; [done|].
  by rewrite (getAllBucketHistograms_run _ Hwf1), (getAllBucketHistograms_run _ Hwf).
Qed.

Lemma X14_bucket_export_unaffected_witness :
  let ops := [OpAddHistogram "latency" false; OpObserveHist 0 7;
              OpAddHistogram "size" true; OpObserveHist 1 9] in
  let r := snd (run ops init_registry) in
  fst (getAllHistograms r)
  = Ret (fold_entries (snapshot_entry r) ∅ (seqZ 0 (curHistID r)))
  /\ bhists (snd (getAllHistograms r)) = bhists r
  /\ fst (getAllBucketHistograms (snd (getAllHistograms r)))
     = fst (getAllBucketHistograms r).
Proof.
  apply (X14_bucket_export_unaffected
           [OpAddHistogram "latency" false; OpObserveHist 0 7;
            OpAddHistogram "size" true; OpObserveHist 1 9]).
  vm_compute. reflexivity.
Defined.

(** ** From one export to the next *)

Lemma export_last_wins r i name h :
  0 <= i < curHistID r ->
  slice_get (hnames r) i = Some name ->
  slice_get (hists r) i = Some (Some h) ->
  (forall j, i < j < curHistID r -> slice_get (hnames r) j <> Some name) ->
  fold_entries (snapshot_entry r) ∅ (seqZ 0 (curHistID r)) !! name
  = Some (snd (extractAndReset h)).
Proof.
  intros Hi Hname Hh Hlast.
  replace (curHistID r) with (i + (curHistID r - i)) at 1 by lia.
  rewrite seqZ_app, Z.add_0_l by lia. rewrite (seqZ_cons i) by lia.
  apply fold_entries_last.
  - unfold snapshot_entry. by rewrite Hname, Hh.
  - intros j v [Hj0 Hj1]%elem_of_seqZ E. unfold snapshot_entry in E.
    destruct (slice_get (hnames r) j) as [nm|] eqn:En; [|done].
    destruct (slice_get (hists r) j) as [[hj|]|]; try done.
    injection E as -> _. apply (Hlast j); [lia|done].
Qed.

(** X15: what an export reports for a histogram is what was observed on it
    since the export before: after [getAllHistograms], the observations
    v1..vn on a handle and a second [getAllHistograms], the map has under the
    handle's name (no later handle sharing it) a snapshot with [count] n and
    [total] the sum, modulo 2^64, and [min] and [max] the least and the
    greatest of the values. *)
Theorem X15_export_reports_interval ops id name vs :
  fst (run ops init_registry) = Ret tt ->
  let r := snd (run ops init_registry) in
  0 <= id < count_adds ops ->
  slice_get (hnames r) id = Some name ->
  (forall j, id < j < count_adds ops -> slice_get (hnames r) j <> Some name) ->
  vs <> [] ->
  Forall (fun v => 0 <= v <= MaxUint64) vs ->
  exists m snap,
    fst ((getAllHistograms ;; observe_all id vs ;; getAllHistograms) r) = Ret m
    /\ m !! name = Some snap
    /\ count snap = wrap64 (Z.of_nat (length vs))
    /\ total snap = wrap64 (sum_list vs)
    /\ min snap ∈ vs /\ (forall v, v ∈ vs -> min snap <= v)
    /\ max snap ∈ vs /\ (forall v, v ∈ vs -> v <= max snap).
Proof.
  intros Hrun. cbv zeta. intros Hid Hname Hlast Hne Hall.
  destruct (run_wf ops init_registry wf_init Hrun) as [Hwf Hcur].
  cbn [curHistID init_registry] in Hcur. rewrite Z.add_0_l in Hcur.
  set (r := snd (run ops init_registry)) in *. rewrite <- Hcur in *.
  destruct (getAllHistograms_run r Hwf) as (Hget & Hwf1 & _).
  rewrite (bind_run _ _ _ _ _ Hget).
  set (r1 := extract_hists 0 (curHistID r) r) in *.
  destruct (wf_reg _ Hwf id Hid) as (s & h & b & Hreg).
  destruct (wf_reg _ Hwf1 id Hid) as (s1 & h1 & b1 & Hreg1).
  assert (Hh1 : h1 = fst (extractAndReset h)).
  { pose proof (reg_hist _ _ _ _ _ Hreg1) as E. subst r1.
    rewrite extract_hists_get, (reg_hist _ _ _ _ _ Hreg) in E.
    destruct (Z.leb_spec 0 id), (Z.ltb_spec id (curHistID r)); try lia.
    cbn in E. by injection E. }
  rewrite (bind_run _ _ _ _ _ (observe_all_run vs _ _ _ _ _ Hreg1)).
  set (h2 := Hist (observe_all_hdat s1 vs (prim h1)) (sec h1)).
  set (r2 := with_bhist id _ (with_hist id h2 r1)).
  assert (Hwf2 : wf r2).
  { eapply wf_with_entry; [done..| | |]; cbn [prim sec h2];
      [apply observe_all_hdat_buf_length|done|apply observe_all_bhist_length]. }
  destruct (getAllHistograms_run r2 Hwf2) as (Hget2 & _).
  rewrite Hget2. cbn [fst].
  eexists _, (observe_all_hdat s1 vs (prim h1)). split; [done|].
  split.
  { change (observe_all_hdat s1 vs (prim h1)) with (snd (extractAndReset h2)).
    apply (export_last_wins r2 id name h2); [exact Hid|exact Hname| |exact Hlast].
    subst r2. cbn [hists with_bhist with_hist set_bhists set_hists].
    eapply slice_get_insert_eq. apply Hreg1. }
  rewrite Hh1, extractAndReset_eq. cbn [fst prim].
  destruct (fresh_spec s1 vs _ (reset_fresh (sec h)))
    as (Hc & _ & Ht & Hmax & Hmin & _).
  destruct (foldl_max_fresh vs Hne Hall) as [Hmax1 Hmax2].
  destruct (foldl_min_fresh vs Hne Hall) as [Hmin1 Hmin2].
  rewrite Hc, Ht, Hmax, Hmin. done.
Qed.

Lemma X15_export_reports_interval_witness :
  let ops := [OpAddHistogram "latency" false; OpObserveHist 0 1000] in
  let r := snd (run ops init_registry) in
  let vs := [3; 1; 2] in
  exists m snap,
    fst ((getAllHistograms ;; observe_all 0 vs ;; getAllHistograms) r) = Ret m
    /\ m !! "latency" = Some snap
    /\ count snap = wrap64 (Z.of_nat (length vs))
    /\ total snap = wrap64 (sum_list vs)
    /\ min snap ∈ vs /\ (forall v, v ∈ vs -> min snap <= v)
    /\ max snap ∈ vs /\ (forall v, v ∈ vs -> v <= max snap).
Proof.
  apply (X15_export_reports_interval
           [OpAddHistogram "latency" false; OpObserveHist 0 1000] 0 "latency"
           [3; 1; 2]).
  - vm_compute. reflexivity.
  - cbn. lia.
  - vm_compute. reflexivity.
  - cbn. intros j Hj. lia.
  - discriminate.
  - repeat constructor; unfold MaxUint64; lia.
Defined.

(** ** The two sample buffers take turns *)

Lemma observe_then_extract_state r id sampled h b vs :
  registered r id sampled h b ->
  observe_then_extract id vs r
  = (Ret (observe_all_hdat sampled vs (prim h)),
     with_bhist id (observe_all_bhist vs b)
       (with_hist id
          (Hist (reset (sec h)) (observe_all_hdat sampled vs (prim h))) r)).
Proof.
  intros Hreg. unfold observe_then_extract.
  rewrite (bind_run _ _ _ _ _ (observe_all_run vs _ _ _ _ _ Hreg)).
  rewrite (call_extractAndReset_run _ _
             (Hist (observe_all_hdat sampled vs (prim h)) (sec h)))
    by (cbn; eapply slice_get_insert_eq; apply Hreg).
  cbn [prim sec]. f_equal.
  unfold with_bhist, with_hist, set_bhists, set_hists. cbn.
  by rewrite list_insert_insert_eq.
Qed.

Lemma observe_then_extract_registered r id sampled h b vs :
  registered r id sampled h b ->
  registered (snd (observe_then_extract id vs r)) id sampled
    (Hist (reset (sec h)) (observe_all_hdat sampled vs (prim h)))
    (observe_all_bhist vs b).
Proof.
  intros Hreg. rewrite (observe_then_extract_state _ _ _ _ _ vs Hreg).
  cbn [snd]. apply (registered_with _ _ _ _ _ _ _ Hreg); cbn [prim sec].
  - cbn. rewrite <- Nat2Z.inj_iff.
    by rewrite (reg_prim_buf _ _ _ _ _ Hreg), (reg_sec_buf _ _ _ _ _ Hreg).
  - rewrite observe_all_hdat_buf_length. rewrite <- Nat2Z.inj_iff.
    by rewrite (reg_prim_buf _ _ _ _ _ Hreg), (reg_sec_buf _ _ _ _ _ Hreg).
  - apply observe_all_bhist_length.
Qed.

(** X16: [extractAndReset] resets the counters of a buffer but not its
    samples, and the two buffers of a histogram take turns.  Over three
    intervals A, B, C on an unsampled histogram (each of fewer than 32768
    observations, C shorter than A), the snapshot of C holds the values of C
    in the slots 1 to |C| and, in the slots above up to |A|, still the values
    of interval A: what lies beyond [kept] is two intervals old. *)
Theorem X16_stale_samples_two_intervals_old r id h b vsA vsB vsC :
  registered r id false h b ->
  fresh (prim h) ->
  Z.of_nat (length vsA) < 32768 ->
  Z.of_nat (length vsB) < 32768 ->
  (length vsC <= length vsA)%nat ->
  exists snap,
    fst ((observe_then_extract id vsA ;; observe_then_extract id vsB ;;
          observe_then_extract id vsC) r) = Ret snap
    /\ kept snap = Z.of_nat (length vsC)
    /\ take (length vsC) (drop 1 (buf snap)) = vsC
    /\ (forall i, (length vsC < i <= length vsA)%nat ->
        buf snap !! i = vsA !! (i - 1)%nat).
Proof.
  intros Hreg Hfresh HnA HnB HnC.
  pose proof (observe_then_extract_registered _ _ _ _ _ vsA Hreg) as Hreg1.
  rewrite (bind_run _ _ _ _ _ (observe_then_extract_state _ _ _ _ _ vsA Hreg)).
  rewrite (observe_then_extract_state _ _ _ _ _ vsA Hreg) in Hreg1.
  cbn [snd] in Hreg1.
  pose proof (observe_then_extract_registered _ _ _ _ _ vsB Hreg1) as Hreg2.
  rewrite (bind_run _ _ _ _ _ (observe_then_extract_state _ _ _ _ _ vsB Hreg1)).
  rewrite (observe_then_extract_state _ _ _ _ _ vsB Hreg1) in Hreg2.
  cbn [snd] in Hreg2.
  rewrite (observe_then_extract_state _ _ _ _ _ vsC Hreg2). cbn [fst prim sec].
  eexists. split; [done|].
  set (dA := observe_all_hdat false vsA (prim h)).
  assert (HbA : buf (reset dA) = write_all 0 vsA (buf (prim h))).
  { destruct (fresh_spec false vsA _ Hfresh) as (_ & _ & _ & _ & _ & Hb).
    by rewrite retained_unsampled in Hb. }
  assert (HlA : Z.of_nat (length (buf (reset dA))) = 32768).
  { rewrite HbA, write_all_length. apply Hreg. }
  destruct (fresh_spec false vsC _ (reset_fresh dA)) as (_ & Hk & _ & _ & _ & Hb).
  rewrite retained_unsampled in Hk, Hb. rewrite Hk, Hb.
  split; [apply wrap64_small; unfold MaxUint64; lia|]. split.
  - apply list_eq. intros i. destruct (decide (i < length vsC)%nat) as [Hi|Hi].
    + rewrite lookup_take_lt, lookup_drop by done.
      pose proof (write_all_recent vsC 0 (buf (reset dA)) (Z.of_nat (1 + i)) HlA)
        as Hw.
      rewrite Z.add_0_l, Z.mod_small, Nat2Z.id in Hw by lia.
      rewrite Hw by lia. f_equal. lia.
    + rewrite lookup_take_ge by lia. symmetry. apply lookup_ge_None. lia.
  - intros i Hi. rewrite write_all_untouched.
    + rewrite HbA.
      pose proof (write_all_recent vsA 0 (buf (prim h)) (Z.of_nat i)) as Hw.
      rewrite Z.add_0_l, Z.mod_small, Nat2Z.id in Hw by lia.
      rewrite Hw; [f_equal; lia|apply Hreg|lia|lia].
    + intros j Hj. rewrite Z.add_0_l, Z.mod_small by lia. lia.
Qed.

Lemma X16_stale_samples_two_intervals_old_witness :
  let vsA := [11; 12; 13] in
  let vsB := [21; 22; 23; 24] in
  let vsC := [31] in
  exists snap,
    fst ((observe_then_extract 0 vsA ;; observe_then_extract 0 vsB ;;
          observe_then_extract 0 vsC) (registry_with_one "latency" false))
    = Ret snap
    /\ kept snap = Z.of_nat (length vsC)
    /\ take (length vsC) (drop 1 (buf snap)) = vsC
    /\ (forall i, (length vsC < i <= length vsA)%nat ->
        buf snap !! i = vsA !! (i - 1)%nat).
Proof.
  apply (X16_stale_samples_two_intervals_old
           (registry_with_one "latency" false) 0 newHist newBHist
           [11; 12; 13] [21; 22; 23; 24] [31]).
  - apply registry_with_one_registered.
  - apply fresh_newHdat.
  - cbn. lia.
  - cbn. lia.
  - cbn. lia.
Defined.
